(** * Radon notebooks: pooled and unpooled Stan models

    A shallow embedding of the two notebooks of the repository
    (the pooled model and [05-unpooled_model.ipynb]): the Stan program
    text they assemble, the data dictionaries they bind, the
    summaries they take of the posterior draws and the reordering used for
    the county plot.

    What belongs to other code is a parameter of the development:
    - the module [clean_data] (arrays [log_radon], [floor_measure],
      [county] and the county names [mn_counties]);
    - the inference engine ([pystan.stan], [extract], indexing of a fit);
    - the numeric kernels of numpy on floating point numbers (the
      one-dimensional mean and standard deviation, addition and
      multiplication) and the ordering pandas sorts by. *)

From Stdlib Require Import ZArith Ascii Sorted Permutation.
From stdpp Require Import gmap strings list fin_maps pretty.

(** ** Text *)

(** The line break of a Python string literal. *)
Definition nl : string := String (ascii_of_nat 10) EmptyString.

(** A triple-quoted literal whose opening quotes are followed at once by a
    line break and whose closing quotes stand on a line of their own: a
    line break, then every line with its line break. *)
Definition triple_quoted (lines : list string) : string :=
  nl +:+ foldr (fun l acc => l +:+ nl +:+ acc) EmptyString lines.

Module Pooled.

Definition pooled_data : string :=
  triple_quoted
    [ "data {";
      "  int<lower=0> N;";
      "  vector[N] x;";
      "  vector[N] y;";
      "}" ].

Definition pooled_parameters : string :=
  triple_quoted
    [ "parameters {";
      "    vector[2] beta;";
      "    real<lower=0> sigma;";
      "}" ].

Definition pooled_model : string :=
  triple_quoted
    [ "model {";
      "  y ~ normal(beta[1] + beta[2] * x, sigma);";
      "}" ].

(** The fragments added up in the [model_code] argument, in order. *)
Definition fragments : list string :=
  [pooled_data; pooled_parameters; pooled_model].

(** [model_code=pooled_data + pooled_parameters + pooled_model] *)
Definition model_code : string :=
  (pooled_data +:+ pooled_parameters) +:+ pooled_model.

End Pooled.

Module Unpooled.

Definition unpooled_data : string :=
  triple_quoted
    [ "data {";
      "  int<lower=0> N;";
      "  int<lower=1, upper=85> county[N];";
      "  vector[N] x;";
      "  vector[N] y;";
      "}" ].

Definition unpooled_parameters : string :=
  triple_quoted
    [ "parameters {";
      "  vector[85] a;";
      "  real beta;";
      "  real<lower=0, upper=100> sigma;";
      "}" ].

Definition unpooled_transformed_parameters : string :=
  triple_quoted
    [ "transformed parameters {";
      "  vector[N] y_hat;";
      "  ";
      "  for (i in 1:N)";
      "    y_hat[i] <- beta * x[i] + a[county[i]];";
      "}" ].

Definition unpooled_model : string :=
  triple_quoted
    [ "model {";
      "  y ~ normal(y_hat, sigma);";
      "}" ].

Definition fragments : list string :=
  [unpooled_data; unpooled_parameters;
   unpooled_transformed_parameters; unpooled_model].

(** [model_code=unpooled_data + unpooled_parameters +
                unpooled_transformed_parameters + unpooled_model] *)
Definition model_code : string :=
  ((unpooled_data +:+ unpooled_parameters)
     +:+ unpooled_transformed_parameters) +:+ unpooled_model.

End Unpooled.

(** ** Reading a Stan block

    The engine reads the program text by the Stan grammar.  What the
    claims need of it is small: the keyword that opens a block, and for a
    data block the names its declarations introduce together with the
    integer bounds written in [<lower=.., upper=..>]. *)

Module Stan.

(** [cut c s]: the text before the first [c], and the text after it when
    there is one. *)
Fixpoint cut (c : ascii) (s : string) : string * option string :=
  match s with
  | EmptyString => (EmptyString, None)
  | String a s' =>
      if decide (a = c) then (EmptyString, Some s')
      else let '(before, after) := cut c s' in (String a before, after)
  end.

Fixpoint strip_prefix (p s : string) : option string :=
  match p, s with
  | EmptyString, _ => Some s
  | String a p', String b s' =>
      if decide (a = b) then strip_prefix p' s' else None
  | String _ _, EmptyString => None
  end.

(** The text that follows the first occurrence of [key]. *)
Fixpoint after (key s : string) : option string :=
  match strip_prefix key s with
  | Some rest => Some rest
  | None => match s with
            | EmptyString => None
            | String _ s' => after key s'
            end
  end.

(** The number written by the leading digits, if there is a digit. *)
Fixpoint digits (acc : option Z) (s : string) : option Z :=
  match s with
  | EmptyString => acc
  | String a s' =>
      match Ascii.is_nat a with
      | Some d => digits (Some (10 * default 0 acc + Z.of_nat d)%Z) s'
      | None => acc
      end
  end.

Definition number_after (key s : string) : option Z :=
  after key s ≫= digits None.

Definition ends_statement (w : string) : bool :=
  match String.rev w with
  | String a _ => bool_decide (a = ";"%char)
  | EmptyString => false
  end.

(** The statements of a block body: runs of words, each closed by a word
    that ends in a semicolon.  Words after the last semicolon are not a
    statement. *)
Fixpoint statements (cur : list string) (ws : list string)
  : list (list string) :=
  match ws with
  | [] => []
  | w :: ws' =>
      if ends_statement w then (cur ++ [w]) :: statements [] ws'
      else statements (cur ++ [w]) ws'
  end.

Record declaration := Declaration {
  decl_name  : string;
  decl_type  : string;            (* the type words, joined *)
  decl_sized : bool;              (* a size in brackets follows the name *)
  decl_lower : option Z;
  decl_upper : option Z
}.

(** A declaration statement [type name;] or [type name[size];]: the last
    word carries the name, the words before it the type. *)
Definition read_declaration (stmt : list string) : option declaration :=
  match reverse stmt with
  | [] => None
  | declarator :: rev_type =>
      let ty := foldr String.app EmptyString (reverse rev_type) in
      let '(before_semi, _) := cut ";"%char declarator in
      let '(name, size) := cut "["%char before_semi in
      match name, rev_type with
      | EmptyString, _ | _, [] => None
      | _, _ =>
          Some {| decl_name := name; decl_type := ty;
                  decl_sized := bool_decide (is_Some size);
                  decl_lower := number_after "lower=" ty;
                  decl_upper := number_after "upper=" ty |}
      end
  end.

(** The body of the block opened by the one-word keyword [kw]:
    [kw { ... }]. *)
Definition block_body (kw : string) (text : string) : option (list string) :=
  match String.words text with
  | k :: open :: rest =>
      if bool_decide (k = kw) && bool_decide (open = "{") then
        match reverse rest with
        | close :: rev_body =>
            if bool_decide (close = "}") then Some (reverse rev_body)
            else None
        | [] => None
        end
      else None
  | _ => None
  end.

(** The declarations of a data block, in the order they are written. *)
Definition data_declarations (text : string) : option (list declaration) :=
  block_body "data" text ≫= fun body =>
  mapM read_declaration (statements [] body).

Definition declared_names (text : string) : option (list string) :=
  fmap (M := option) (fmap (M := list) decl_name) (data_declarations text).

Definition find_declaration (name : string) (text : string)
  : option declaration :=
  data_declarations text ≫= fun ds =>
  head (filter (fun d => decl_name d = name) ds).

(** The keyword that opens a block: the text before its brace, without
    the white space around it. *)
Definition block_keyword (text : string) : list string :=
  String.words (cut "{"%char text).1.

(** The blocks of a program text, in order: a block runs up to the brace
    that closes its opening brace.  [cur] holds the characters of the
    block being read, last first; [depth] counts the braces still open.
    Text after the last closing brace belongs to no block. *)
Fixpoint blocks_go (cur : string) (depth : nat) (s : string) : list string :=
  match s with
  | EmptyString => []
  | String a s' =>
      if decide (a = "{"%char) then blocks_go (String a cur) (S depth) s'
      else if decide (a = "}"%char) then
        match depth with
        | 0 | 1 => String.rev (String a cur) :: blocks_go EmptyString 0 s'
        | S d => blocks_go (String a cur) d s'
        end
      else blocks_go (String a cur) depth s'
  end.

Definition blocks (text : string) : list string :=
  blocks_go EmptyString 0 text.

Definition block_keywords (text : string) : list (list string) :=
  block_keyword <$> blocks text.

End Stan.

(** The notebooks of the repository. *)
Inductive notebook := PooledNotebook | UnpooledNotebook.

Definition fragments_of (nb : notebook) : list string :=
  match nb with
  | PooledNotebook => Pooled.fragments
  | UnpooledNotebook => Unpooled.fragments
  end.

Definition model_code_of (nb : notebook) : string :=
  match nb with
  | PooledNotebook => Pooled.model_code
  | UnpooledNotebook => Unpooled.model_code
  end.

Definition data_block_of (nb : notebook) : string :=
  match nb with
  | PooledNotebook => Pooled.pooled_data
  | UnpooledNotebook => Unpooled.unpooled_data
  end.

(** ** Exceptions

    A Python exception is carried as its class name and message.  A
    computation returns a value or raises; nothing in the notebooks has a
    [try] statement, so the only way an exception is handled is [bind]
    passing it on. *)

Record exception := PyExc { exc_type : string; exc_msg : string }.

Inductive result (A : Type) : Type :=
| Ok (a : A)
| Raise (e : exception).
Arguments Ok {A} a.
Arguments Raise {A} e.

#[global] Instance result_ret : MRet result := fun A a => Ok a.
#[global] Instance result_bind : MBind result := fun A B f m =>
  match m with
  | Ok a => f a
  | Raise e => Raise e
  end.
#[global] Instance result_fmap : FMap result := fun A B f m =>
  match m with
  | Ok a => Ok (f a)
  | Raise e => Raise e
  end.

Definition KeyError (key : string) : exception := PyExc "KeyError" key.
Definition ValueError (msg : string) : exception := PyExc "ValueError" msg.
Definition IndexError (msg : string) : exception := PyExc "IndexError" msg.
Definition AxisError (msg : string) : exception := PyExc "AxisError" msg.

(** ** Floating point numbers and the numpy kernels on them

    The notebooks never look inside a float: they hand floats to numpy, to
    pandas and to the plotting calls.  The operations they use are the
    fields of this interface. *)

Class Floats := {
  scalar : Type;
  float_literal : Z -> Z -> scalar;      (* [float_literal n d]: the literal n/d *)
  fadd : scalar -> scalar -> scalar;
  fsub : scalar -> scalar -> scalar;
  fmul : scalar -> scalar -> scalar;
  flog : scalar -> scalar;               (* np.log on one element *)
  fle : scalar -> scalar -> bool;        (* the comparison values are sorted by *)
  np_mean_1d : list scalar -> scalar;    (* mean of a one-dimensional run *)
  np_std_1d : list scalar -> scalar;     (* std of a one-dimensional run *)
  np_linspace : scalar -> scalar -> list scalar;
  np_argsort : list scalar -> list nat   (* positions in sorted order *)
}.

(** ** The data provider

    The module [clean_data] is imported by the notebooks and is not one of
    them: its attributes are taken as given, with the types the notebooks
    use them at.  [county] is an array of 64-bit integers. *)
Record CleanData {floats : Floats} := {
  log_radon : list scalar;
  floor_measure : list scalar;
  county : list Z;                       (* 0-based county codes, one per row *)
  mn_counties : list string;             (* county names *)
  srrs_mn_floor : list scalar;           (* srrs_mn.floor *)
  srrs_mn_activity : list scalar         (* srrs_mn.activity *)
}.

(** ** Data binding *)

(** The integers of a numpy array are 64 bits wide: a sum is taken modulo
    2^64 into the signed range. *)
Definition int64_wrap (z : Z) : Z :=
  ((z + 2 ^ 63) mod 2 ^ 64 - 2 ^ 63)%Z.

Section DataBinding.
Context {floats : Floats} (clean_data : CleanData).

(** What a name of the data dictionary is bound to. *)
Inductive bound_value :=
| BInt (n : Z)                         (* a Python int *)
| BIntArray (a : list Z)               (* an array of integers *)
| BArray (a : list scalar).            (* an array of floats *)

Definition bound_length (v : bound_value) : option nat :=
  match v with
  | BInt _ => None
  | BIntArray a => Some (length a)
  | BArray a => Some (length a)
  end.

(** [len(a)] *)
Definition len {A} (a : list A) : Z := Z.of_nat (length a).

(** [a + k] on an integer array adds [k] to every element, in the element
    type of the array: a sum past the largest 64-bit integer wraps
    around. *)
Definition array_add_int (a : list Z) (k : Z) : list Z :=
  (fun c => int64_wrap (c + k)) <$> a.

(** A dictionary display: the entries are stored left to right. *)
Definition dict_display {V} (entries : list (string * V)) : gmap string V :=
  foldl (fun d kv => <[kv.1 := kv.2]> d) ∅ entries.

Definition pooled_data_dict : gmap string bound_value :=
  dict_display
    [ ("N", BInt (len (log_radon clean_data)));
      ("x", BArray (floor_measure clean_data));
      ("y", BArray (log_radon clean_data)) ].

Definition unpooled_data_dict : gmap string bound_value :=
  dict_display
    [ ("N", BInt (len (log_radon clean_data)));
      ("county", BIntArray (array_add_int (county clean_data) 1));
      ("x", BArray (floor_measure clean_data));
      ("y", BArray (log_radon clean_data)) ].

Definition data_dict_of (nb : notebook) : gmap string bound_value :=
  match nb with
  | PooledNotebook => pooled_data_dict
  | UnpooledNotebook => unpooled_data_dict
  end.


End DataBinding.


(** ** numpy arrays

    A two-dimensional array owns a buffer; [a.T] is a second array object
    on the same buffer.  Reductions allocate their result. *)

Section Numpy.
Context {floats : Floats}.

(** The contents of a two-dimensional array: [shape0] rows of [shape1]
    elements. *)
Record ndarray2 := NdArray2 {
  shape0 : nat;
  shape1 : nat;
  rows : list (list scalar)
}.

Definition well_shaped (a : ndarray2) : Prop :=
  length (rows a) = shape0 a /\
  Forall (fun r => length r = shape1 a) (rows a).

(** [a[:, j]] *)
Definition column (a : ndarray2) (j : nat) : list scalar :=
  omap (fun r => r !! j) (rows a).

Definition transpose (a : ndarray2) : ndarray2 :=
  {| shape0 := shape1 a;
     shape1 := shape0 a;
     rows := column a <$> seq 0 (shape1 a) |}.

(** A reduction along [axis]: along axis 0 one value per column, along
    axis 1 one value per row. *)
Definition reduce_axis (f : list scalar -> scalar) (axis : Z) (a : ndarray2)
  : result (list scalar) :=
  if decide (axis = 0%Z) then Ok (f <$> rows (transpose a))
  else if decide (axis = 1%Z) then Ok (f <$> rows a)
  else Raise (AxisError "axis is out of bounds for array of dimension 2").

Inductive buffer :=
| Buffer1 (v : list scalar)
| Buffer2 (a : ndarray2).

(** The memory of the interpreter that holds array data. *)
Local Abbreviation store := (gmap nat buffer).

(** A two-dimensional array object: the buffer it reads and whether it
    reads it transposed. *)
Record ndarray_ref := NdArrayRef {
  base : nat;
  transposed : bool
}.

Definition contents (σ : store) (r : ndarray_ref) : option ndarray2 :=
  match σ !! base r with
  | Some (Buffer2 a) => Some (if transposed r then transpose a else a)
  | _ => None
  end.

Definition contents1 (σ : store) (l : nat) : option (list scalar) :=
  match σ !! l with
  | Some (Buffer1 v) => Some v
  | _ => None
  end.

(** Every two-dimensional buffer of the store is rectangular. *)
Definition well_stored (σ : store) : Prop :=
  forall l a, σ !! l = Some (Buffer2 a) -> well_shaped a.

(** Computations that read and extend the store, or raise. *)
Definition M (A : Type) : Type := store -> result (A * store).

#[global] Instance M_ret : MRet M := fun A a σ => Ok (a, σ).
#[global] Instance M_bind : MBind M := fun A B f m σ =>
  match m σ with
  | Ok (a, σ') => f a σ'
  | Raise e => Raise e
  end.

Definition raise {A} (e : exception) : M A := fun _ => Raise e.

Definition lift {A} (r : result A) : M A := fun σ =>
  match r with
  | Ok a => Ok (a, σ)
  | Raise e => Raise e
  end.

(** A new one-dimensional array. *)
Definition alloc1 (v : list scalar) : M nat := fun σ =>
  let l := fresh (dom σ) in Ok (l, <[l := Buffer1 v]> σ).

Definition read2 (r : ndarray_ref) : M ndarray2 := fun σ =>
  match contents σ r with
  | Some a => Ok (a, σ)
  | None => Raise (ValueError "not a two-dimensional array")
  end.

Definition read1 (l : nat) : M (list scalar) := fun σ =>
  match contents1 σ l with
  | Some v => Ok (v, σ)
  | None => Raise (ValueError "not a one-dimensional array")
  end.

(** [a.T]: no data is copied. *)
Definition ndarray_T (r : ndarray_ref) : ndarray_ref :=
  {| base := base r; transposed := negb (transposed r) |}.

(** [a.mean(axis)] and [a.std(axis)] *)
Definition ndarray_reduce (f : list scalar -> scalar) (r : ndarray_ref)
    (axis : Z) : M nat :=
  a ← read2 r;
  v ← lift (reduce_axis f axis a);
  alloc1 v.

Definition ndarray_mean := ndarray_reduce np_mean_1d.
Definition ndarray_std := ndarray_reduce np_std_1d.

(** The message of an unpacking into two names that got [n] values, [n]
    being 0 or 1. *)
Definition not_enough_values (n : nat) : string :=
  "not enough values to unpack (expected 2, got " +:+ pretty n +:+ ")".

(** [p, q = v]: the array is iterated and must yield two values. *)
Definition unpack2 (l : nat) : M (scalar * scalar) :=
  v ← read1 l;
  match v with
  | [p; q] => mret (p, q)
  | _ :: _ :: _ :: _ => raise (ValueError "too many values to unpack (expected 2)")
  | _ => raise (ValueError (not_enough_values (length v)))
  end.

(** [dict[key]] *)
Definition getitem {V} (d : gmap string V) (key : string) : M V :=
  match d !! key with
  | Some v => mret v
  | None => raise (KeyError key)
  end.

(** The summary of the pooled notebook:
    [b0, m0 = pooled_sample['beta'].T.mean(1)] *)
Definition b0_m0 (pooled_sample : gmap string ndarray_ref)
  : M (scalar * scalar) :=
  beta ← getitem pooled_sample "beta";
  means ← ndarray_mean (ndarray_T beta) 1;
  unpack2 means.

End Numpy.

Abbreviation store := (gmap nat buffer).

(** ** pandas Series *)

Section Pandas.
Context {floats : Floats} (clean_data : CleanData).

(** A Series: its rows in order, each a label and a value. *)
Local Abbreviation series := (list (string * scalar)).

Definition index (s : series) : list string := s.*1.
Definition values (s : series) : list scalar := s.*2.

(** The message of a Series given [n] values for an index of [m]
    labels. *)
Definition length_mismatch (n m : nat) : string :=
  "Length of values (" +:+ pretty n
    +:+ ") does not match length of index (" +:+ pretty m +:+ ")".

(** [pd.Series(data, index=index)] *)
Definition pd_Series (data : nat) (labels : list string) : M series :=
  v ← read1 data;
  if decide (length v = length labels) then mret (zip labels v)
  else raise (ValueError (length_mismatch (length v) (length labels))).

(** The rows that carry the label [k]. *)
Definition rows_labelled (s : series) (k : string) : series :=
  filter (fun r => r.1 = k) s.

(** [s[k]] for one label: the values under it (one value when the label
    occurs once). *)
Definition series_getitem (s : series) (k : string) : result (list scalar) :=
  match rows_labelled s k with
  | [] => Raise (KeyError k)
  | rs => Ok (values rs)
  end.

(** [s[labels]] for a sequence of labels: for each label in turn, the
    rows that carry it. *)
Fixpoint series_getitem_list (s : series) (labels : list string)
  : result series :=
  match labels with
  | [] => Ok []
  | k :: ks =>
      match rows_labelled s k with
      | [] => Raise (KeyError k)
      | rs => rest ← series_getitem_list s ks; Ok (rs ++ rest)
      end
  end.

(** [a[positions]] *)
Definition take {A} (a : list A) (positions : list nat) : result (list A) :=
  mapM (fun i => match a !! i with
                 | Some x => Ok x
                 | None => Raise (IndexError "index out of bounds")
                 end) positions.

(** [s.sort_values()]: the rows taken in the order numpy's argsort gives
    for the values. *)
Definition sort_values (s : series) : result series :=
  take s (np_argsort (values s)).

(** [unpooled_estimates = pd.Series(a.mean(0), index=clean_data.mn_counties)] *)
Definition unpooled_estimates (a : ndarray_ref) : M series :=
  means ← ndarray_mean a 0;
  pd_Series means (mn_counties clean_data).

(** [unpooled_se = pd.Series(a.std(0), index=clean_data.mn_counties)] *)
Definition unpooled_se (a : ndarray_ref) : M series :=
  stds ← ndarray_std a 0;
  pd_Series stds (mn_counties clean_data).

(** [order = unpooled_estimates.sort_values().index] *)
Definition order (estimates : series) : result (list string) :=
  index <$> sort_values estimates.

(** Each value is at most the next one. *)
Definition nondecreasing (v : list scalar) : Prop :=
  Sorted (fun x y => fle x y = true) v.

(** What argsort promises for values that can all be compared: the
    positions of [v], each once, in an order in which the values do not
    decrease. *)
Definition argsort_sorts (v : list scalar) : Prop :=
  np_argsort v ≡ₚ seq 0 (length v) /\
  nondecreasing (omap (fun i => v !! i) (np_argsort v)).

End Pandas.

Abbreviation series := (list (string * scalar)).

(** ** The transformed parameters block

    [[
      vector[N] y_hat;
      for (i in 1:N)
        y_hat[i] <- beta * x[i] + a[county[i]];
    ]]
    Stan containers are indexed from 1, and an index outside a container
    stops the program with an error.  The block runs on data the engine
    has loaded, that is on inputs that meet the data block; inputs that
    break a declaration of the data block are refused when the data are
    loaded and never reach the loop. *)

Section TransformedParameters.
Context {floats : Floats}.

Definition stan_get {A} (v : list A) (i : Z) : result A :=
  if decide (1 ≤ i)%Z then
    match v !! Z.to_nat (i - 1) with
    | Some x => Ok x
    | None => Raise (IndexError "index out of range")
    end
  else Raise (IndexError "index out of range").

Definition stan_set {A} (v : list A) (i : Z) (x : A) : result (list A) :=
  if decide (1 ≤ i ≤ Z.of_nat (length v))%Z
  then Ok (<[Z.to_nat (i - 1) := x]> v)
  else Raise (IndexError "index out of range").

(** [lo:hi] *)
Definition stan_range (lo hi : Z) : list Z :=
  (fun k => lo + Z.of_nat k)%Z <$> seq 0 (Z.to_nat (hi - lo + 1)).

Fixpoint stan_for {S} (body : S -> Z -> result S) (indices : list Z) (s : S)
  : result S :=
  match indices with
  | [] => Ok s
  | i :: rest => s' ← body s i; stan_for body rest s'
  end.

(** The values bound to the data block of the unpooled model. *)
Record unpooled_inputs := {
  data_N : Z;
  data_county : list Z;
  data_x : list scalar;
  data_y : list scalar
}.

(** A draw of the parameters block of the unpooled model. *)
Record unpooled_draw := {
  par_a : list scalar;
  par_beta : scalar;
  par_sigma : scalar
}.

(** A freshly declared vector holds no number yet. *)
Definition declare_vector (n : Z) : list (option scalar) :=
  replicate (Z.to_nat n) None.

(** [y_hat[i] <- beta * x[i] + a[county[i]];] *)
Definition assign_y_hat (d : unpooled_inputs) (p : unpooled_draw)
    (y_hat : list (option scalar)) (i : Z) : result (list (option scalar)) :=
  xi ← stan_get (data_x d) i;
  ci ← stan_get (data_county d) i;
  a_ci ← stan_get (par_a p) ci;
  stan_set y_hat i (Some (fadd (fmul (par_beta p) xi) a_ci)).

Definition transformed_parameters (d : unpooled_inputs) (p : unpooled_draw)
  : result (list (option scalar)) :=
  stan_for (assign_y_hat d p) (stan_range 1 (data_N d))
           (declare_vector (data_N d)).

(** The inputs the unpooled notebook binds, read back from its data
    dictionary. *)
Definition inputs_of_dict (dict : gmap string bound_value)
  : option unpooled_inputs :=
  match dict !! "N", dict !! "county", dict !! "x", dict !! "y" with
  | Some (BInt n), Some (BIntArray c), Some (BArray xs), Some (BArray ys) =>
      Some {| data_N := n; data_county := c; data_x := xs; data_y := ys |}
  | _, _, _, _ => None
  end.

End TransformedParameters.

(** ** The inference engine and the plotting library *)

Class Engine {floats : Floats} := {
  fit : Type;
  (** [pystan.stan(model_code=.., data=.., iter=.., chains=..)] *)
  pystan_stan : string -> gmap string bound_value -> Z -> Z -> M fit;
  (** [fit.extract(permuted=..)] *)
  fit_extract : fit -> bool -> M (gmap string ndarray_ref);
  (** [fit[name]] *)
  fit_getitem : fit -> string -> M ndarray_ref
}.

Section Plotting.
Context {floats : Floats}.

Inductive coord :=
| CInt (n : Z)
| CFloat (x : scalar).

Inductive plot_call :=
| Scatter (xs ys : list coord)
| Plot (xs ys : list coord) (fmt : string)
| Xlim (lo hi : Z)
| Ylim (lo hi : Z)
| Title (s : string)
| Xlabel (s : string)
| Ylabel (s : string).

End Plotting.

Class Pyplot {floats : Floats} := {
  plt : plot_call -> M unit
}.

(** ** The notebooks, cell by cell

    Statements that only display a value ([print], [head], a bare
    expression at the end of a cell) bind nothing and are left out, except
    for the indexing [pooled_sample['beta']], which can raise. *)

Section Notebooks.
Context {floats : Floats} {engine : Engine} {pyplot : Pyplot}
  (clean_data : CleanData).

(** [range(n)] *)
Definition range (n : nat) : list Z := Z.of_nat <$> seq 0 n.

Fixpoint for_each {A} (body : A -> M unit) (items : list A) : M unit :=
  match items with
  | [] => mret tt
  | x :: rest => body x;; for_each body rest
  end.

Fixpoint zip3 {A B C} (l1 : list A) (l2 : list B) (l3 : list C)
  : list (A * B * C) :=
  match l1, l2, l3 with
  | a :: l1', b :: l2', c :: l3' => (a, b, c) :: zip3 l1' l2' l3'
  | _, _, _ => []
  end.

(** *** Pooled model *)

Definition pooled_fit : M fit :=
  pystan_stan Pooled.model_code (pooled_data_dict clean_data) 1000 2.

Definition pooled_plot (b0 m0 : scalar) : M unit :=
  plt (Scatter (CFloat <$> srrs_mn_floor clean_data)
               (CFloat <$> ((fun a => flog (fadd a (float_literal 1 10)))
                              <$> srrs_mn_activity clean_data)));;
  let xvals := np_linspace (float_literal (-1) 10) (float_literal 12 10) in
  plt (Plot (CFloat <$> xvals)
            (CFloat <$> ((fun x => fadd (fmul m0 x) b0) <$> xvals)) "r--");;
  plt (Title "Fitted model");;
  plt (Xlabel "Floor");;
  plt (Ylabel "log(radon)").

Definition pooled_notebook : M (scalar * scalar) :=
  pooled_fit ← pooled_fit;
  pooled_sample ← fit_extract pooled_fit true;
  _ ← getitem pooled_sample "beta";
  '(b0, m0) ← b0_m0 pooled_sample;
  pooled_plot b0 m0;;
  mret (b0, m0).

(** *** Unpooled model *)

Definition unpooled_fit : M fit :=
  pystan_stan Unpooled.model_code (unpooled_data_dict clean_data) 1000 2.

Definition unpooled_summaries (unpooled_fit : fit) : M (series * series) :=
  a ← fit_getitem unpooled_fit "a";
  estimates ← unpooled_estimates clean_data a;
  a' ← fit_getitem unpooled_fit "a";
  se ← unpooled_se clean_data a';
  mret (estimates, se).

Definition unpooled_plot (unpooled_estimates unpooled_se : series) : M unit :=
  order ← lift (order unpooled_estimates);
  ordered ← lift (series_getitem_list unpooled_estimates order);
  plt (Scatter (CInt <$> range (length unpooled_estimates))
               (CFloat <$> values ordered));;
  ms ← lift (series_getitem_list unpooled_estimates order);
  ses ← lift (series_getitem_list unpooled_se order);
  for_each (fun '(i, m, se) =>
              plt (Plot [CInt i; CInt i]
                        [CFloat (fsub m se); CFloat (fadd m se)] "b-"))
           (zip3 (range (length unpooled_estimates)) (values ms) (values ses));;
  plt (Xlim (-1) 86);;
  plt (Ylim (-1) 4);;
  plt (Title "Variation in county radon estimates");;
  plt (Xlabel "Ordered county");;
  plt (Ylabel "Radon estimate").

Definition unpooled_notebook : M (series * series) :=
  unpooled_fit ← unpooled_fit;
  '(estimates, se) ← unpooled_summaries unpooled_fit;
  unpooled_plot estimates se;;
  mret (estimates, se).

(** *** A cell raises

    A cell of the notebook raises [e], the cells before it having run to
    their end. *)

Inductive pooled_cell_raises (σ : store) (e : exception) : Prop :=
| pooled_raises_in_fit :
    pooled_fit σ = Raise e -> pooled_cell_raises σ e
| pooled_raises_in_extract f σ1 :
    pooled_fit σ = Ok (f, σ1) ->
    fit_extract f true σ1 = Raise e -> pooled_cell_raises σ e
| pooled_raises_in_inspection f σ1 sample σ2 :
    pooled_fit σ = Ok (f, σ1) ->
    fit_extract f true σ1 = Ok (sample, σ2) ->
    getitem sample "beta" σ2 = Raise e -> pooled_cell_raises σ e
| pooled_raises_in_summary f σ1 sample σ2 beta σ3 :
    pooled_fit σ = Ok (f, σ1) ->
    fit_extract f true σ1 = Ok (sample, σ2) ->
    getitem sample "beta" σ2 = Ok (beta, σ3) ->
    b0_m0 sample σ3 = Raise e -> pooled_cell_raises σ e
| pooled_raises_in_plot f σ1 sample σ2 beta σ3 b0 m0 σ4 :
    pooled_fit σ = Ok (f, σ1) ->
    fit_extract f true σ1 = Ok (sample, σ2) ->
    getitem sample "beta" σ2 = Ok (beta, σ3) ->
    b0_m0 sample σ3 = Ok ((b0, m0), σ4) ->
    pooled_plot b0 m0 σ4 = Raise e -> pooled_cell_raises σ e.

Inductive unpooled_cell_raises (σ : store) (e : exception) : Prop :=
| unpooled_raises_in_fit :
    unpooled_fit σ = Raise e -> unpooled_cell_raises σ e
| unpooled_raises_in_summary f σ1 :
    unpooled_fit σ = Ok (f, σ1) ->
    unpooled_summaries f σ1 = Raise e -> unpooled_cell_raises σ e
| unpooled_raises_in_plot f σ1 estimates se σ2 :
    unpooled_fit σ = Ok (f, σ1) ->
    unpooled_summaries f σ1 = Ok ((estimates, se), σ2) ->
    unpooled_plot estimates se σ2 = Raise e -> unpooled_cell_raises σ e.

Definition cell_raises (nb : notebook) (σ : store) (e : exception) : Prop :=
  match nb with
  | PooledNotebook => pooled_cell_raises σ e
  | UnpooledNotebook => unpooled_cell_raises σ e
  end.

(** Running the notebook from its first cell ends with [e] raised. *)
Definition notebook_raises (nb : notebook) (σ : store) (e : exception) : Prop :=
  match nb with
  | PooledNotebook => pooled_notebook σ = Raise e
  | UnpooledNotebook => unpooled_notebook σ = Raise e
  end.

End Notebooks.

(** ** What the plotting cells draw, and the mean of the pooled model *)

Section PlotCalls.
Context {floats : Floats} {pyplot : Pyplot} (clean_data : CleanData).

(** [beta[1] + beta[2] * x], the mean of [y] in the pooled model block: a
    real plus a real times a vector. *)
Definition pooled_mean (beta : list scalar) (x : list scalar)
  : result (list scalar) :=
  b1 ← stan_get beta 1;
  b2 ← stan_get beta 2;
  Ok ((fun xi => fadd b1 (fmul b2 xi)) <$> x).

(** The calls the plotting cell of the pooled notebook makes, in order. *)
Definition pooled_plot_calls (b0 m0 : scalar) : list plot_call :=
  let xvals := np_linspace (float_literal (-1) 10) (float_literal 12 10) in
  [ Scatter (CFloat <$> srrs_mn_floor clean_data)
            (CFloat <$> ((fun a => flog (fadd a (float_literal 1 10)))
                           <$> srrs_mn_activity clean_data));
    Plot (CFloat <$> xvals)
         (CFloat <$> ((fun x => fadd (fmul m0 x) b0) <$> xvals)) "r--";
    Title "Fitted model";
    Xlabel "Floor";
    Ylabel "log(radon)" ].

(** [plt.plot([i,i], [m - se, m + se], 'b-')] *)
Definition error_bar (p : Z * scalar * scalar) : plot_call :=
  let '(i, m, se) := p in
  Plot [CInt i; CInt i] [CFloat (fsub m se); CFloat (fadd m se)] "b-".

(** The calls the plotting cell of the unpooled notebook makes for [n]
    counties, once [unpooled_estimates[order]] has given [ms] and
    [unpooled_se[order]] has given [ses]. *)
Definition unpooled_plot_calls (n : nat) (ms ses : list scalar)
  : list plot_call :=
  Scatter (CInt <$> range n) (CFloat <$> ms)
  :: (error_bar <$> zip3 (range n) ms ses)
  ++ [ Xlim (-1) 86;
       Ylim (-1) 4;
       Title "Variation in county radon estimates";
       Xlabel "Ordered county";
       Ylabel "Radon estimate" ].

(** The plotting library draws whatever it is given. *)
Definition plt_returns : Prop :=
  forall (c : plot_call) (σ : store), exists σ', plt c σ = Ok (tt, σ').

(** For every [i] in 1..N, the three indexings of the loop body are within
    their containers. *)
Definition rows_in_range (d : unpooled_inputs) (p : unpooled_draw) : Prop :=
  forall i, (1 <= i <= data_N d)%Z ->
    exists xi ci a_ci,
      stan_get (data_x d) i = Ok xi /\
      stan_get (data_county d) i = Ok ci /\
      stan_get (par_a p) ci = Ok a_ci.

End PlotCalls.

(** ** What a fit gives when indexed *)

Section FitContents.
Context {floats : Floats} {engine : Engine}.

(** In the store [σ], [fit[name]] returns an array that holds [draws]. *)
Definition indexing_gives (f : fit) (name : string) (draws : ndarray2)
    (σ : store) : Prop :=
  exists r σ', fit_getitem f name σ = Ok (r, σ') /\ contents σ' r = Some draws.

End FitContents.

(** ** The claim about the shape of the program text *)

(** [f1 + f2 + ... + fn], summed left to right. *)
Definition join (fs : list string) : string :=
  foldl String.app EmptyString fs.

(** The program text is the sum of exactly three fragments: one data block,
    one parameters block and one model block. *)
Definition three_fragment_specification (nb : notebook) : Prop :=
  model_code_of nb = join (fragments_of nb) /\
  Stan.block_keywords <$> fragments_of nb
    = [ [["data"]]; [["parameters"]]; [["model"]] ].

(** ** Instances to run the model on

    Rationals in place of floats: exact sums and quotients, the standard
    deviation cut to six decimals, an insertion sort for argsort. *)

Module Rational.

Import QArith.

Definition Qsum (l : list Q) : Q := foldr Qplus 0%Q l.

Definition Qmean (l : list Q) : Q :=
  Qred (Qsum l / inject_Z (Z.of_nat (length l))).

(** The square root of a rational, cut to six decimals. *)
Definition Qsqrt6 (q : Q) : Q :=
  Qred (Qmake (Z.sqrt (Qnum q * 10 ^ 12 / Zpos (Qden q))) (10 ^ 6)).

Definition Qstd (l : list Q) : Q :=
  let m := Qmean l in
  Qsqrt6 (Qmean ((fun x => (x - m) * (x - m))%Q <$> l)).

(** Fifty evenly spaced points from [lo] to [hi]. *)
Definition Qlinspace (lo hi : Q) : list Q :=
  (fun k => Qred (lo + inject_Z (Z.of_nat k) * (hi - lo) / 49)%Q) <$> seq 0 50.

(** A rational stand-in for the logarithm. *)
Definition Qlog (x : Q) : Q := Qred (2 * (x - 1) / (x + 1))%Q.

Fixpoint insert_by_value (p : nat * Q) (sorted : list (nat * Q))
  : list (nat * Q) :=
  match sorted with
  | [] => [p]
  | q :: rest =>
      if Qle_bool (snd q) (snd p) then q :: insert_by_value p rest
      else p :: sorted
  end.

Definition Qargsort (v : list Q) : list nat :=
  fst <$> foldl (fun acc p => insert_by_value p acc) [] (zip (seq 0 (length v)) v).

#[export] Instance rational_floats : Floats := {|
  scalar := Q;
  float_literal := fun n d => Qred (inject_Z n / inject_Z d);
  fadd := fun a b => Qred (a + b);
  fsub := fun a b => Qred (a - b);
  fmul := fun a b => Qred (a * b);
  flog := Qlog;
  fle := Qle_bool;
  np_mean_1d := Qmean;
  np_std_1d := Qstd;
  np_linspace := Qlinspace;
  np_argsort := Qargsort
|}.

(** An engine that rejects every program. *)
Definition rejected : exception :=
  ValueError "Failed to parse Stan model".

Definition rejecting_engine : Engine := {|
  fit := unit;
  pystan_stan := fun _ _ _ _ => raise rejected;
  fit_extract := fun _ _ => mret ∅;
  fit_getitem := fun _ name => raise (KeyError name)
|}.

(** A plotting library that draws nothing. *)
Definition blank_pyplot : Pyplot := {| plt := fun _ => mret tt |}.

(** Three rows of a made-up observation table. *)
Definition three_rows : CleanData := {|
  log_radon := [1; 2 # 5; 3 # 2]%Q;
  floor_measure := [0; 1; 0]%Q;
  county := [0; 84; 3]%Z;
  mn_counties := ["AITKIN"; "ANOKA"; "BECKER"];
  srrs_mn_floor := [0; 1; 0]%Q;
  srrs_mn_activity := [2; 1; 4]%Q
|}.

(** Three draws of [beta] in a store that holds nothing else. *)
Definition beta_draws : ndarray2 :=
  {| shape0 := 3; shape1 := 2;
     rows := [[1; 2]; [3; 4]; [5; 9]]%Q |}.

(** The means of the two columns of [beta_draws]. *)
Definition beta_means : Q * Q := (3, 5)%Q.

(** Two draws of [a] for three counties. *)
Definition a_draws : ndarray2 :=
  {| shape0 := 2; shape1 := 3;
     rows := [[3; 1; 2]; [5; 1; 3]]%Q |}.

Definition one_array (a : ndarray2) : store := {[ 0%nat := Buffer2 a ]}.

Definition whole : ndarray_ref := {| base := 0%nat; transposed := false |}.

(** A store with both arrays: the draws of [beta] at 0 and of [a] at 1. *)
Definition two_arrays : store :=
  <[ 1%nat := Buffer2 a_draws ]> (one_array beta_draws).

Definition second : ndarray_ref := {| base := 1%nat; transposed := false |}.

(** The inputs of the unpooled model for the three rows, and a draw of its
    parameters with every intercept at one half. *)
Definition three_inputs : unpooled_inputs := {|
  data_N := 3;
  data_county := [1; 85; 4]%Z;
  data_x := [0; 1; 0]%Q;
  data_y := [1; 2 # 5; 3 # 2]%Q
|}.

Definition a_draw : unpooled_draw := {|
  par_a := replicate 85 (1 # 2)%Q;
  par_beta := (- (3 # 5))%Q;
  par_sigma := (3 # 4)%Q
|}.

(** The estimates of the three counties. *)
Definition three_estimates : series :=
  [("AITKIN", 4%Q); ("ANOKA", 1%Q); ("BECKER", (5 # 2)%Q)].

End Rational.

(** An engine that has its draws ready, for the store [Rational.two_arrays]:
    sampling returns at once, [extract] hands out the draws of [beta] and
    indexing by ["a"] the draws of [a]. *)

Module Replay.

Import QArith Rational.

Definition replaying_engine : Engine := {|
  fit := unit;
  pystan_stan := fun _ _ _ _ => mret tt;
  fit_extract := fun _ _ => mret {[ "beta" := whole ]};
  fit_getitem := fun _ name =>
    if decide (name = "a") then mret second else raise (KeyError name)
|}.

(** Two draws of a parameter with a single component. *)
Definition one_column : ndarray2 :=
  {| shape0 := 2; shape1 := 1; rows := [[1]; [2]]%Q |}.

(** A data provider that names two counties. *)
Definition two_names : CleanData := {|
  log_radon := [1; 2 # 5; 3 # 2]%Q;
  floor_measure := [0; 1; 0]%Q;
  county := [0; 1; 1]%Z;
  mn_counties := ["AITKIN"; "ANOKA"];
  srrs_mn_floor := [0; 1; 0]%Q;
  srrs_mn_activity := [2; 1; 4]%Q
|}.


(** Standard errors for the three counties of [three_estimates]. *)
Definition three_se : series :=
  [("AITKIN", (1 # 4)%Q); ("ANOKA", (1 # 10)%Q); ("BECKER", (1 # 2)%Q)].

(** A draw of the two coefficients of the pooled model. *)
Definition intercept : Q := (27 # 20)%Q.
Definition slope : Q := (- (3 # 5))%Q.

End Replay.

(** * Properties *)

(** ** The program text *)

Lemma pooled_model_code_joined : Pooled.model_code = join Pooled.fragments.
Proof. reflexivity. Qed.

Lemma unpooled_model_code_joined : Unpooled.model_code = join Unpooled.fragments.
Proof. reflexivity. Qed.

(** C1, as stated, fails: it is not the case that in every notebook the
    program text is the sum of exactly three fragments (data, parameters,
    model).  The unpooled notebook adds up four. *)
Lemma unpooled_sums_four_fragments :
  ~ (forall nb, three_fragment_specification nb).
Proof.
  intros Hall. destruct (Hall UnpooledNotebook) as [_ Hkinds].
  vm_compute in Hkinds. discriminate Hkinds.
Qed.

(** C1, amended: the pooled program text is the sum of exactly three
    fragments, a data block, a parameters block and a model block; the
    unpooled program text is the sum of exactly four, with a transformed
    parameters block between the parameters and the model.  The blocks
    read off the summed text are the same, in the same order. *)
Theorem model_code_is_sum_of_blocks :
  three_fragment_specification PooledNotebook /\
  Stan.block_keywords (model_code_of PooledNotebook)
    = [["data"]; ["parameters"]; ["model"]] /\
  model_code_of UnpooledNotebook = join (fragments_of UnpooledNotebook) /\
  Stan.block_keywords <$> fragments_of UnpooledNotebook
    = [ [["data"]]; [["parameters"]];
        [["transformed"; "parameters"]]; [["model"]] ] /\
  Stan.block_keywords (model_code_of UnpooledNotebook)
    = [["data"]; ["parameters"]; ["transformed"; "parameters"]; ["model"]].
Proof.
  repeat split; vm_compute; reflexivity.
Qed.

(** ** The data dictionaries *)

Lemma int64_wrap_small (z : Z) :
  (- 2 ^ 63 <= z < 2 ^ 63)%Z -> int64_wrap z = z.
Proof.
  intros Hz. unfold int64_wrap.
  rewrite Z.mod_small by lia. lia.
Qed.

Section DataBindingFacts.
Context {floats : Floats} (clean_data : CleanData).

Lemma pooled_lookup (k : string) :
  pooled_data_dict clean_data !! k =
    if decide (k = "y") then Some (BArray (log_radon clean_data))
    else if decide (k = "x") then Some (BArray (floor_measure clean_data))
    else if decide (k = "N") then Some (BInt (len (log_radon clean_data)))
    else None.
Proof.
  unfold pooled_data_dict, dict_display. simpl.
  repeat case_decide; subst; simplify_map_eq; reflexivity.
Qed.

Lemma unpooled_lookup (k : string) :
  unpooled_data_dict clean_data !! k =
    if decide (k = "y") then Some (BArray (log_radon clean_data))
    else if decide (k = "x") then Some (BArray (floor_measure clean_data))
    else if decide (k = "county")
         then Some (BIntArray (array_add_int (county clean_data) 1))
    else if decide (k = "N") then Some (BInt (len (log_radon clean_data)))
    else None.
Proof.
  unfold unpooled_data_dict, dict_display. simpl.
  repeat case_decide; subst; simplify_map_eq; reflexivity.
Qed.

Lemma array_add_int_lookup (a : list Z) (k : Z) (i : nat) :
  array_add_int a k !! i = (fun c => int64_wrap (c + k)) <$> a !! i.
Proof. unfold array_add_int. apply list_lookup_fmap. Qed.

Lemma array_add_int_length (a : list Z) (k : Z) :
  length (array_add_int a k) = length a.
Proof. unfold array_add_int. apply length_fmap. Qed.

(** On 64-bit elements the offset of a county code in 0..84 does not
    wrap. *)
Lemma county_offset_does_not_wrap (c : Z) :
  (0 <= c <= 84)%Z -> int64_wrap (c + 1) = (c + 1)%Z.
Proof. intros Hc. apply int64_wrap_small. lia. Qed.


(** C3: when the county codes lie in 0..84, every value bound to [county]
    lies within the bounds the data block declares for it, which are 1
    and 85. *)
Theorem county_bound_within_declared_range :
  Forall (fun c => 0 <= c <= 84)%Z (county clean_data) ->
  exists decl lo hi bound,
    Stan.find_declaration "county" Unpooled.unpooled_data = Some decl /\
    Stan.decl_lower decl = Some lo /\ Stan.decl_upper decl = Some hi /\
    lo = 1%Z /\ hi = 85%Z /\
    unpooled_data_dict clean_data !! "county" = Some (BIntArray bound) /\
    Forall (fun v => lo <= v <= hi)%Z bound.
Proof.
  intros Hcodes.
  eexists _, 1%Z, 85%Z, (array_add_int (county clean_data) 1).
  split; [vm_compute; reflexivity |].
  do 4 (split; [reflexivity |]).
  split; [rewrite unpooled_lookup; reflexivity |].
  unfold array_add_int. apply Forall_fmap.
  eapply Forall_impl; [exact Hcodes |]. simpl. intros c Hc.
  rewrite county_offset_does_not_wrap by exact Hc. lia.
Qed.

(** C4: when the arrays of the data provider have one length, the number
    bound to [N] is the length of every array of the dictionary, in both
    notebooks; and [N] is a name the data block declares. *)
Theorem bound_arrays_have_length_N (nb : notebook) :
  length (floor_measure clean_data) = length (log_radon clean_data) ->
  length (county clean_data) = length (log_radon clean_data) ->
  exists n,
    is_Some (Stan.find_declaration "N" (data_block_of nb)) /\
    data_dict_of clean_data nb !! "N" = Some (BInt n) /\
    forall k v m,
      data_dict_of clean_data nb !! k = Some v ->
      bound_length v = Some m -> n = Z.of_nat m.
Proof.
  intros Hx Hc. exists (len (log_radon clean_data)).
  destruct nb; simpl.
  - split; [vm_compute; eauto |].
    split; [rewrite pooled_lookup; reflexivity |].
    intros k v m. rewrite pooled_lookup.
    repeat case_decide; intros Hv Hm; simplify_eq; simpl in Hm;
      simplify_eq; unfold len; congruence.
  - split; [vm_compute; eauto |].
    split; [rewrite unpooled_lookup; reflexivity |].
    intros k v m. rewrite unpooled_lookup.
    repeat case_decide; intros Hv Hm; simplify_eq; simpl in Hm;
      simplify_eq; unfold len; rewrite ?array_add_int_length; congruence.
Qed.

(** C5: the names the data block declares are exactly the keys of the
    data dictionary: N, x, y in the pooled notebook and N, county, x, y
    in the unpooled one. *)
Theorem declared_names_are_the_keys (nb : notebook) :
  exists names,
    Stan.declared_names (data_block_of nb) = Some names /\
    names = match nb with
            | PooledNotebook => ["N"; "x"; "y"]
            | UnpooledNotebook => ["N"; "county"; "x"; "y"]
            end /\
    forall k, k ∈ names <-> is_Some (data_dict_of clean_data nb !! k).
Proof.
  destruct nb; eexists; (split; [vm_compute; reflexivity |]);
    (split; [reflexivity |]); intros k; simpl.
  - rewrite pooled_lookup. rewrite !elem_of_cons, elem_of_nil.
    repeat case_decide; subst; split; intros Hk;
      try (eexists; reflexivity); try (destruct Hk as [? Hk]; discriminate);
      intuition congruence.
  - rewrite unpooled_lookup. rewrite !elem_of_cons, elem_of_nil.
    repeat case_decide; subst; split; intros Hk;
      try (eexists; reflexivity); try (destruct Hk as [? Hk]; discriminate);
      intuition congruence.
Qed.

End DataBindingFacts.


(** ** Arrays and their reductions *)

Section NumpyFacts.
Context {floats : Floats}.

Lemma omap_lookup_all {A} (r : list A) :
  omap (fun j => r !! j) (seq 0 (length r)) = r.
Proof.
  induction r as [| x r IH] using rev_ind; [reflexivity |].
  rewrite length_app. simpl. rewrite seq_app, omap_app. simpl.
  rewrite list_lookup_middle by lia. simpl. f_equal.
  rewrite <- IH at 2. apply list_omap_ext, Forall2_same_length_lookup.
  split; [reflexivity |].
  intros i j j' Hj Hj'. rewrite Hj in Hj'. injection Hj' as <-.
  apply lookup_seq in Hj as [-> Hlt]. simpl.
  apply lookup_app_l. exact Hlt.
Qed.

Lemma column_lookup (rs : list (list scalar)) (n j : nat) :
  Forall (fun r => length r = n) rs -> j < n ->
  forall i, omap (fun r => r !! j) rs !! i = rs !! i ≫= (fun r => r !! j).
Proof.
  intros Hrs Hj. induction Hrs as [| r rs Hr _ IH]; intros i; [reflexivity |].
  destruct (lookup_lt_is_Some_2 r j) as [x Hx]; [lia |].
  simpl. rewrite Hx. destruct i as [| i]; simpl; [by rewrite Hx | apply IH].
Qed.

Lemma omap_lookup_length (rs : list (list scalar)) (n j : nat) :
  Forall (fun r => length r = n) rs -> j < n ->
  length (omap (fun r => r !! j) rs) = length rs.
Proof.
  intros Hrs Hj. induction Hrs as [| r rs Hr _ IH]; [reflexivity |].
  destruct (lookup_lt_is_Some_2 r j) as [x Hx]; [lia |].
  simpl. rewrite Hx. simpl. f_equal. exact IH.
Qed.

Lemma column_length (a : ndarray2) (j : nat) :
  well_shaped a -> j < shape1 a -> length (column a j) = shape0 a.
Proof.
  intros [Hlen Hrows] Hj. rewrite <- Hlen.
  apply (omap_lookup_length _ (shape1 a)); assumption.
Qed.

Lemma well_shaped_transpose (a : ndarray2) :
  well_shaped a -> well_shaped (transpose a).
Proof.
  intros Ha. split; simpl.
  - rewrite length_fmap. apply length_seq.
  - apply Forall_fmap, Forall_forall. intros j Hj.
    apply elem_of_seq in Hj. simpl. apply column_length; [exact Ha | lia].
Qed.

Lemma column_transpose (a : ndarray2) (i : nat) (r : list scalar) :
  well_shaped a -> rows a !! i = Some r -> column (transpose a) i = r.
Proof.
  intros [Hlen Hrows] Hi. unfold column at 1. simpl.
  assert (Hr : length r = shape1 a).
  { eapply Forall_lookup_1 in Hrows; [exact Hrows | exact Hi]. }
  transitivity (omap (fun j => r !! j) (seq 0 (length r)));
    [| apply omap_lookup_all].
  rewrite Hr.
  apply list_omap_ext, Forall2_fmap_l, Forall_Forall2_diag, Forall_forall.
  intros j Hj. apply elem_of_seq in Hj. unfold column, compose.
  rewrite (column_lookup _ (shape1 a)) by (exact Hrows || lia).
  rewrite Hi. reflexivity.
Qed.

Lemma transpose_involutive (a : ndarray2) :
  well_shaped a -> transpose (transpose a) = a.
Proof.
  intros Ha. destruct a as [n m rs]. unfold transpose at 1. simpl. f_equal.
  apply list_eq. intros i. rewrite list_lookup_fmap.
  destruct Ha as [Hlen Hrows]. simpl in Hlen, Hrows.
  destruct (rs !! i) as [r |] eqn:Hi.
  - rewrite lookup_seq_lt by (apply lookup_lt_Some in Hi; lia). simpl.
    f_equal. apply (column_transpose (NdArray2 n m rs)); [by split | exact Hi].
  - rewrite lookup_seq_ge by (apply lookup_ge_None in Hi; lia). reflexivity.
Qed.

(** The transposed object reads the transposed contents. *)
Lemma contents_T (σ : store) (r : ndarray_ref) :
  well_stored σ -> contents σ (ndarray_T r) = transpose <$> contents σ r.
Proof.
  intros Hσ. unfold contents, ndarray_T. simpl.
  destruct (σ !! base r) as [[v | a] |] eqn:Hb; try reflexivity.
  destruct (transposed r); simpl; [| reflexivity].
  rewrite transpose_involutive; [reflexivity | eapply Hσ, Hb].
Qed.

Lemma contents_well_shaped (σ : store) (r : ndarray_ref) (a : ndarray2) :
  well_stored σ -> contents σ r = Some a -> well_shaped a.
Proof.
  intros Hσ. unfold contents.
  destruct (σ !! base r) as [[v | b] |] eqn:Hb; try discriminate.
  intros [= <-]. destruct (transposed r).
  - apply well_shaped_transpose. eapply Hσ, Hb.
  - eapply Hσ, Hb.
Qed.

(** Allocation leaves every array that was there as it was. *)
Lemma contents_alloc1 (σ : store) (v : list scalar) (r : ndarray_ref) :
  contents (<[fresh (dom σ) := Buffer1 v]> σ) r = contents σ r.
Proof.
  unfold contents. destruct (decide (base r = fresh (dom σ))) as [Heq | Hne].
  - rewrite Heq, lookup_insert_eq.
    assert (Hnone : σ !! fresh (dom σ) = None).
    { apply not_elem_of_dom, is_fresh. }
    rewrite Hnone. reflexivity.
  - rewrite lookup_insert_ne by congruence. reflexivity.
Qed.

Lemma well_stored_alloc1 (σ : store) (v : list scalar) :
  well_stored σ -> well_stored (<[fresh (dom σ) := Buffer1 v]> σ).
Proof.
  intros Hσ l a Hl. apply lookup_insert_Some in Hl as [[_ Hl] | [_ Hl]].
  - discriminate Hl.
  - eapply Hσ, Hl.
Qed.

(** What a reduction returns and what it leaves in the store. *)
Lemma ndarray_reduce_run (f : list scalar -> scalar) (r : ndarray_ref)
    (axis : Z) (σ : store) :
  ndarray_reduce f r axis σ =
    match contents σ r with
    | None => Raise (ValueError "not a two-dimensional array")
    | Some a =>
        match reduce_axis f axis a with
        | Ok v => Ok (fresh (dom σ), <[fresh (dom σ) := Buffer1 v]> σ)
        | Raise e => Raise e
        end
    end.
Proof.
  unfold ndarray_reduce, mbind, M_bind, read2, lift, alloc1.
  destruct (contents σ r) as [a |]; [| reflexivity].
  destruct (reduce_axis f axis a); reflexivity.
Qed.

Lemma read1_alloc1 (σ : store) (v : list scalar) :
  read1 (fresh (dom σ)) (<[fresh (dom σ) := Buffer1 v]> σ)
  = Ok (v, <[fresh (dom σ) := Buffer1 v]> σ).
Proof. unfold read1, contents1. rewrite lookup_insert_eq. reflexivity. Qed.

End NumpyFacts.

(** ** The summaries of the posterior draws *)

Section SummaryFacts.
Context {floats : Floats} (clean_data : CleanData).

Lemma b0_m0_run (pooled_sample : gmap string ndarray_ref)
    (beta : ndarray_ref) (σ : store) :
  well_stored σ -> pooled_sample !! "beta" = Some beta ->
  b0_m0 pooled_sample σ =
    match contents σ beta with
    | None => Raise (ValueError "not a two-dimensional array")
    | Some a =>
        let v := np_mean_1d <$> rows (transpose a) in
        match v with
        | [p; q] => Ok ((p, q), <[fresh (dom σ) := Buffer1 v]> σ)
        | _ :: _ :: _ :: _ =>
            Raise (ValueError "too many values to unpack (expected 2)")
        | _ => Raise (ValueError (not_enough_values (length v)))
        end
    end.
Proof.
  intros Hσ Hbeta. unfold b0_m0, getitem. rewrite Hbeta.
  unfold mbind, M_bind, mret, M_ret at 1. unfold ndarray_mean.
  rewrite ndarray_reduce_run, contents_T by exact Hσ.
  destruct (contents σ beta) as [a |]; simpl; [| reflexivity].
  unfold unpack2, mbind, M_bind. rewrite read1_alloc1.
  destruct (np_mean_1d <$> (column a <$> seq 0 (shape1 a)))
    as [| p [| q [| w v]]]; reflexivity.
Qed.

Lemma series_of_reduction_run (f : list scalar -> scalar)
    (labels : list string) (a_ref : ndarray_ref) (σ : store) :
  (means ← ndarray_reduce f a_ref 0; pd_Series means labels) σ =
    match contents σ a_ref with
    | None => Raise (ValueError "not a two-dimensional array")
    | Some a =>
        let v := f <$> rows (transpose a) in
        if decide (length v = length labels)
        then Ok (zip labels v, <[fresh (dom σ) := Buffer1 v]> σ)
        else Raise (ValueError (length_mismatch (length v) (length labels)))
    end.
Proof.
  unfold mbind, M_bind. rewrite ndarray_reduce_run.
  destruct (contents σ a_ref) as [a |]; simpl; [| reflexivity].
  unfold pd_Series, mbind, M_bind. rewrite read1_alloc1.
  case_decide; reflexivity.
Qed.

Lemma rows_labelled_absent (s : series) (k : string) :
  k ∉ index s -> rows_labelled s k = [].
Proof.
  unfold rows_labelled, index. induction s as [| [k' v] s IH]; [reflexivity |].
  rewrite fmap_cons, not_elem_of_cons. intros [Hne Hk].
  rewrite filter_cons_False by (simpl in *; congruence). apply IH, Hk.
Qed.

(** Under an index without repeated labels, a label selects its row. *)
Lemma rows_labelled_unique (s : series) (i : nat) (k : string) (v : scalar) :
  NoDup (index s) -> s !! i = Some (k, v) -> rows_labelled s k = [(k, v)].
Proof.
  unfold index. revert i. induction s as [| [k' v'] s IH]; intros i Hnd Hi.
  - discriminate Hi.
  - rewrite fmap_cons in Hnd. apply NoDup_cons in Hnd as [Hfresh Hnd].
    simpl in Hfresh. unfold rows_labelled. destruct i as [| i]; simpl in Hi.
    + injection Hi as -> ->. rewrite filter_cons_True by reflexivity.
      f_equal. apply rows_labelled_absent, Hfresh.
    + assert (k' <> k).
      { intros ->. apply Hfresh, list_elem_of_fmap. exists (k, v).
        split; [reflexivity |]. eapply list_elem_of_lookup_2, Hi. }
      rewrite filter_cons_False by (simpl; congruence).
      eapply IH; eassumption.
Qed.

Lemma series_getitem_zip (labels : list string) (v : list scalar)
    (j : nat) (name : string) (x : scalar) :
  NoDup labels -> length v = length labels ->
  labels !! j = Some name -> v !! j = Some x ->
  series_getitem (zip labels v) name = Ok [x].
Proof.
  intros Hnd Hlen Hname Hx. unfold series_getitem.
  rewrite (rows_labelled_unique _ j name x).
  - reflexivity.
  - unfold index. rewrite fst_zip by lia. exact Hnd.
  - apply lookup_zip_with_Some. eauto.
Qed.

(** C6: the summaries are the means (and standard deviations) of the
    components' runs of draws.  [b0] and [m0] are the means of the first
    and second column of the draws of [beta]; under the name of county
    [j], [unpooled_estimates] holds the mean and [unpooled_se] the standard
    deviation of column [j] of the draws of [a]. *)
Theorem summaries_are_column_statistics
    (σ : store) (pooled_sample : gmap string ndarray_ref)
    (beta a : ndarray_ref) (beta_draws a_draws : ndarray2) :
  well_stored σ ->
  pooled_sample !! "beta" = Some beta ->
  contents σ beta = Some beta_draws -> shape1 beta_draws = 2 ->
  contents σ a = Some a_draws ->
  length (mn_counties clean_data) = shape1 a_draws ->
  NoDup (mn_counties clean_data) ->
  (exists σ',
      b0_m0 pooled_sample σ
      = Ok ((np_mean_1d (column beta_draws 0),
             np_mean_1d (column beta_draws 1)), σ')) /\
  (exists estimates se σ1 σ2,
      unpooled_estimates clean_data a σ = Ok (estimates, σ1) /\
      unpooled_se clean_data a σ = Ok (se, σ2) /\
      forall j name,
        mn_counties clean_data !! j = Some name ->
        series_getitem estimates name = Ok [np_mean_1d (column a_draws j)] /\
        series_getitem se name = Ok [np_std_1d (column a_draws j)]).
Proof.
  intros Hσ Hsample Hbeta Hcols Ha Hlen Hnd. split.
  - rewrite (b0_m0_run _ beta) by assumption. rewrite Hbeta. simpl.
    rewrite Hcols. simpl. eexists. reflexivity.
  - unfold unpooled_estimates, unpooled_se, ndarray_mean, ndarray_std.
    rewrite !series_of_reduction_run, Ha. simpl.
    rewrite !length_fmap, length_seq.
    rewrite !decide_True by (symmetry; exact Hlen).
    do 4 eexists. split; [reflexivity |]. split; [reflexivity |].
    intros j name Hname.
    assert (Hj : j < shape1 a_draws).
    { rewrite <- Hlen. eapply lookup_lt_Some, Hname. }
    split; eapply series_getitem_zip; try eassumption;
      rewrite ?length_fmap, ?length_seq; try (symmetry; exact Hlen);
      rewrite !list_lookup_fmap, lookup_seq_lt by exact Hj; reflexivity.
Qed.

(** C7: summarising is a function of the draws alone.  A second run, in
    the store the first run left, finds the array as it was and returns
    the same values; and two runs from any two stores in which the arrays
    hold the same draws return the same values or raise the same
    exception. *)
Theorem summaries_are_reproducible
    (σ : store) (pooled_sample : gmap string ndarray_ref)
    (draws : ndarray_ref) :
  well_stored σ ->
  pooled_sample !! "beta" = Some draws ->
  (forall out σ',
      b0_m0 pooled_sample σ = Ok (out, σ') ->
      contents σ' draws = contents σ draws /\
      exists σ'', b0_m0 pooled_sample σ' = Ok (out, σ'')) /\
  (forall out σ',
      unpooled_estimates clean_data draws σ = Ok (out, σ') ->
      contents σ' draws = contents σ draws /\
      exists σ'', unpooled_estimates clean_data draws σ' = Ok (out, σ'')) /\
  (forall out σ',
      unpooled_se clean_data draws σ = Ok (out, σ') ->
      contents σ' draws = contents σ draws /\
      exists σ'', unpooled_se clean_data draws σ' = Ok (out, σ'')) /\
  (forall (σ2 : store) (sample2 : gmap string ndarray_ref) (draws2 : ndarray_ref),
      well_stored σ2 ->
      sample2 !! "beta" = Some draws2 ->
      contents σ2 draws2 = contents σ draws ->
      fst <$> b0_m0 sample2 σ2 = fst <$> b0_m0 pooled_sample σ /\
      fst <$> unpooled_estimates clean_data draws2 σ2
        = fst <$> unpooled_estimates clean_data draws σ /\
      fst <$> unpooled_se clean_data draws2 σ2
        = fst <$> unpooled_se clean_data draws σ).
Proof.
  intros Hσ Hsample. split; [| split; [| split]].
  - intros out σ' Hrun.
    rewrite (b0_m0_run _ draws) in Hrun by assumption.
    destruct (contents σ draws) as [a |] eqn:Ha; [| discriminate].
    simpl in Hrun.
    destruct (np_mean_1d <$> (column a <$> seq 0 (shape1 a)))
      as [| p [| q [| w v]]] eqn:Hv; try discriminate.
    injection Hrun as <- <-. split.
    + rewrite contents_alloc1. exact Ha.
    + rewrite (b0_m0_run _ draws)
        by (assumption || apply well_stored_alloc1, Hσ).
      rewrite contents_alloc1, Ha. simpl. rewrite Hv. eexists. reflexivity.
  - intros out σ' Hrun. unfold unpooled_estimates, ndarray_mean in *.
    rewrite series_of_reduction_run in Hrun.
    destruct (contents σ draws) as [a |] eqn:Ha; [| discriminate].
    simpl in Hrun. case_decide as Hlen; [| discriminate].
    injection Hrun as <- <-. split.
    + rewrite contents_alloc1. exact Ha.
    + rewrite series_of_reduction_run, contents_alloc1, Ha. simpl.
      rewrite decide_True by exact Hlen. eexists. reflexivity.
  - intros out σ' Hrun. unfold unpooled_se, ndarray_std in *.
    rewrite series_of_reduction_run in Hrun.
    destruct (contents σ draws) as [a |] eqn:Ha; [| discriminate].
    simpl in Hrun. case_decide as Hlen; [| discriminate].
    injection Hrun as <- <-. split.
    + rewrite contents_alloc1. exact Ha.
    + rewrite series_of_reduction_run, contents_alloc1, Ha. simpl.
      rewrite decide_True by exact Hlen. eexists. reflexivity.
  - intros σ2 sample2 draws2 Hσ2 Hsample2 Hsame. split; [| split].
    + rewrite (b0_m0_run _ draws2), (b0_m0_run _ draws) by assumption.
      rewrite Hsame. destruct (contents σ draws) as [a |]; [| reflexivity].
      simpl.
      destruct (np_mean_1d <$> (column a <$> seq 0 (shape1 a)))
        as [| p [| q [| w v]]]; reflexivity.
    + unfold unpooled_estimates, ndarray_mean.
      rewrite !series_of_reduction_run, Hsame.
      destruct (contents σ draws) as [a |]; [| reflexivity]. simpl.
      case_decide; reflexivity.
    + unfold unpooled_se, ndarray_std.
      rewrite !series_of_reduction_run, Hsame.
      destruct (contents σ draws) as [a |]; [| reflexivity]. simpl.
      case_decide; reflexivity.
Qed.

End SummaryFacts.

(** ** Exceptions out of a notebook *)

Section ExceptionFacts.
Context {floats : Floats} {engine : Engine} {pyplot : Pyplot}
  (clean_data : CleanData).

Lemma bind_raise {A B} (m : M A) (f : A -> M B) (σ : store) (e : exception) :
  m σ = Raise e -> (m ≫= f) σ = Raise e.
Proof. intros Hm. unfold mbind, M_bind. rewrite Hm. reflexivity. Qed.

Lemma bind_ok {A B} (m : M A) (f : A -> M B) (σ σ' : store) (a : A) :
  m σ = Ok (a, σ') -> (m ≫= f) σ = f a σ'.
Proof. intros Hm. unfold mbind, M_bind. rewrite Hm. reflexivity. Qed.

(** C8: an exception raised by the inference call, or by any other cell,
    is the exception the notebook ends with; nothing on the way catches
    it or puts another in its place. *)
Theorem exception_reaches_the_caller
    (nb : notebook) (σ : store) (e : exception) :
  cell_raises clean_data nb σ e -> notebook_raises clean_data nb σ e.
Proof.
  destruct nb; simpl; intros Hcell.
  - unfold pooled_notebook. destruct Hcell as
      [Hfit | f σ1 Hfit Hex | f σ1 sample σ2 Hfit Hex Hget
       | f σ1 sample σ2 beta σ3 Hfit Hex Hget Hsum
       | f σ1 sample σ2 beta σ3 b0 m0 σ4 Hfit Hex Hget Hsum Hplot].
    + apply bind_raise, Hfit.
    + rewrite (bind_ok _ _ _ _ _ Hfit). apply bind_raise, Hex.
    + rewrite (bind_ok _ _ _ _ _ Hfit), (bind_ok _ _ _ _ _ Hex).
      apply bind_raise, Hget.
    + rewrite (bind_ok _ _ _ _ _ Hfit), (bind_ok _ _ _ _ _ Hex),
        (bind_ok _ _ _ _ _ Hget).
      apply bind_raise, Hsum.
    + rewrite (bind_ok _ _ _ _ _ Hfit), (bind_ok _ _ _ _ _ Hex),
        (bind_ok _ _ _ _ _ Hget), (bind_ok _ _ _ _ _ Hsum).
      apply bind_raise, Hplot.
  - unfold unpooled_notebook. destruct Hcell as
      [Hfit | f σ1 Hfit Hsum | f σ1 estimates se σ2 Hfit Hsum Hplot].
    + apply bind_raise, Hfit.
    + rewrite (bind_ok _ _ _ _ _ Hfit). apply bind_raise, Hsum.
    + rewrite (bind_ok _ _ _ _ _ Hfit), (bind_ok _ _ _ _ _ Hsum).
      apply bind_raise, Hplot.
Qed.

(** The other way round: an exception the notebook ends with was raised by
    one of its cells. *)
Lemma exception_comes_from_a_cell
    (nb : notebook) (σ : store) (e : exception) :
  notebook_raises clean_data nb σ e -> cell_raises clean_data nb σ e.
Proof.
  destruct nb; simpl.
  - unfold pooled_notebook. intros Hrun.
    destruct (pooled_fit clean_data σ) as [[f σ1] | e1] eqn:Hfit.
    2: { rewrite (bind_raise _ _ _ _ Hfit) in Hrun. injection Hrun as <-.
         apply pooled_raises_in_fit, Hfit. }
    rewrite (bind_ok _ _ _ _ _ Hfit) in Hrun.
    destruct (fit_extract f true σ1) as [[sample σ2] | e2] eqn:Hex.
    2: { rewrite (bind_raise _ _ _ _ Hex) in Hrun. injection Hrun as <-.
         eapply pooled_raises_in_extract; eassumption. }
    rewrite (bind_ok _ _ _ _ _ Hex) in Hrun.
    destruct (getitem sample "beta" σ2) as [[beta σ3] | e3] eqn:Hget.
    2: { rewrite (bind_raise _ _ _ _ Hget) in Hrun. injection Hrun as <-.
         eapply pooled_raises_in_inspection; eassumption. }
    rewrite (bind_ok _ _ _ _ _ Hget) in Hrun.
    destruct (b0_m0 sample σ3) as [[[b0 m0] σ4] | e4] eqn:Hsum.
    2: { rewrite (bind_raise _ _ _ _ Hsum) in Hrun. injection Hrun as <-.
         eapply pooled_raises_in_summary; eassumption. }
    rewrite (bind_ok _ _ _ _ _ Hsum) in Hrun.
    destruct (pooled_plot clean_data b0 m0 σ4) as [[[] σ5] | e5] eqn:Hplot.
    { rewrite (bind_ok _ _ _ _ _ Hplot) in Hrun. discriminate Hrun. }
    rewrite (bind_raise _ _ _ _ Hplot) in Hrun. injection Hrun as <-.
    eapply pooled_raises_in_plot; eassumption.
  - unfold unpooled_notebook. intros Hrun.
    destruct (unpooled_fit clean_data σ) as [[f σ1] | e1] eqn:Hfit.
    2: { rewrite (bind_raise _ _ _ _ Hfit) in Hrun. injection Hrun as <-.
         apply unpooled_raises_in_fit, Hfit. }
    rewrite (bind_ok _ _ _ _ _ Hfit) in Hrun.
    destruct (unpooled_summaries clean_data f σ1)
      as [[[estimates se] σ2] | e2] eqn:Hsum.
    2: { rewrite (bind_raise _ _ _ _ Hsum) in Hrun. injection Hrun as <-.
         eapply unpooled_raises_in_summary; eassumption. }
    rewrite (bind_ok _ _ _ _ _ Hsum) in Hrun.
    destruct (unpooled_plot estimates se σ2) as [[[] σ3] | e3] eqn:Hplot.
    { rewrite (bind_ok _ _ _ _ _ Hplot) in Hrun. discriminate Hrun. }
    rewrite (bind_raise _ _ _ _ Hplot) in Hrun. injection Hrun as <-.
    eapply unpooled_raises_in_plot; eassumption.
Qed.

End ExceptionFacts.

(** ** The transformed parameters *)

Section TransformedParametersFacts.
Context {floats : Floats}.

Lemma stan_get_Ok {A} (v : list A) (i : Z) (x : A) :
  stan_get v i = Ok x <-> (1 <= i)%Z /\ v !! Z.to_nat (i - 1) = Some x.
Proof.
  unfold stan_get. case_decide as Hi.
  - destruct (v !! Z.to_nat (i - 1)) as [y |]; split.
    + intros [= ->]. auto.
    + intros [_ [= ->]]. reflexivity.
    + discriminate.
    + intros [_ Hx]. discriminate Hx.
  - split; [discriminate | intros [Hi' _]; contradiction].
Qed.

Lemma stan_range_lookup (n : Z) (k : nat) :
  (Z.of_nat k < n)%Z -> stan_range 1 n !! k = Some (1 + Z.of_nat k)%Z.
Proof.
  intros Hk. unfold stan_range. rewrite list_lookup_fmap.
  rewrite lookup_seq_lt by lia. reflexivity.
Qed.

Lemma stan_range_length (n : Z) : length (stan_range 1 n) = Z.to_nat n.
Proof.
  unfold stan_range. rewrite length_fmap, length_seq. f_equal. lia.
Qed.

(** A loop keeps what its body keeps: [Inv k] holds before the step at
    position [k] of the indices. *)
Lemma stan_for_invariant {S} (body : S -> Z -> result S)
    (Inv : nat -> S -> Prop) (indices : list Z) (s : S) :
  Inv 0 s ->
  (forall k i s0, indices !! k = Some i -> Inv k s0 ->
                  exists s1, body s0 i = Ok s1 /\ Inv (Datatypes.S k) s1) ->
  exists s', stan_for body indices s = Ok s' /\ Inv (length indices) s'.
Proof.
  revert Inv s. induction indices as [| i rest IH]; intros Inv s H0 Hstep.
  - exists s. split; [reflexivity | exact H0].
  - destruct (Hstep 0 i s eq_refl H0) as (s1 & Hbody & H1).
    destruct (IH (fun k => Inv (Datatypes.S k)) s1 H1) as (s' & Hrun & Hend).
    { intros k j s0 Hj Hk. apply (Hstep (Datatypes.S k) j s0 Hj Hk). }
    exists s'. split; [| exact Hend].
    simpl. rewrite Hbody. exact Hrun.
Qed.

(** C9: on inputs that meet the data block (N rows of [x] and of [county],
    county indices in 1..85) and a draw of the 85 intercepts, the block
    runs to its end and leaves in [y_hat[i]], for every [i] in 1..N,
    [beta * x[i] + a[county[i]]]; the model block takes [y_hat] for the
    mean of [y]. *)
Theorem y_hat_is_slope_times_x_plus_county_intercept
    (d : unpooled_inputs) (p : unpooled_draw) :
  (0 <= data_N d)%Z ->
  len (data_x d) = data_N d ->
  len (data_county d) = data_N d ->
  Forall (fun c => 1 <= c <= 85)%Z (data_county d) ->
  length (par_a p) = 85 ->
  Stan.block_body "model" Unpooled.unpooled_model
    = Some ["y"; "~"; "normal(y_hat,"; "sigma);"] /\
  exists y_hat,
    transformed_parameters d p = Ok y_hat /\
    len y_hat = data_N d /\
    forall i, (1 <= i <= data_N d)%Z ->
      exists xi ci a_ci,
        stan_get (data_x d) i = Ok xi /\
        stan_get (data_county d) i = Ok ci /\
        stan_get (par_a p) ci = Ok a_ci /\
        stan_get y_hat i = Ok (Some (fadd (fmul (par_beta p) xi) a_ci)).
Proof.
  intros HN Hx Hc Hrange Ha. split; [vm_compute; reflexivity |].
  unfold len in *. unfold transformed_parameters.
  pose (Inv := fun (k : nat) (y : list (option scalar)) =>
    length y = Z.to_nat (data_N d) /\
    forall j, j < k ->
      exists xi ci a_ci,
        data_x d !! j = Some xi /\ data_county d !! j = Some ci /\
        (1 <= ci)%Z /\ par_a p !! Z.to_nat (ci - 1) = Some a_ci /\
        y !! j = Some (Some (fadd (fmul (par_beta p) xi) a_ci))).
  destruct (stan_for_invariant (assign_y_hat d p) Inv
              (stan_range 1 (data_N d)) (declare_vector (data_N d)))
    as (y_hat & Hrun & Hlen & Hall).
  - split; [apply length_replicate | intros j Hj; lia].
  - intros k i y Hi [Hylen Hy].
    assert (Hk : k < Z.to_nat (data_N d)).
    { apply lookup_lt_Some in Hi. rewrite stan_range_length in Hi. exact Hi. }
    rewrite stan_range_lookup in Hi by lia. injection Hi as <-.
    destruct (lookup_lt_is_Some_2 (data_x d) k) as [xi Hxi]; [lia |].
    destruct (lookup_lt_is_Some_2 (data_county d) k) as [ci Hci]; [lia |].
    assert (Hcr : (1 <= ci <= 85)%Z).
    { eapply Forall_lookup_1 in Hrange; [exact Hrange | exact Hci]. }
    destruct (lookup_lt_is_Some_2 (par_a p) (Z.to_nat (ci - 1)))
      as [a_ci Haci]; [lia |].
    exists (<[k := Some (fadd (fmul (par_beta p) xi) a_ci)]> y). split.
    + unfold assign_y_hat.
      assert (Hgx : stan_get (data_x d) (1 + Z.of_nat k) = Ok xi).
      { apply stan_get_Ok. split; [lia |].
        replace (Z.to_nat (1 + Z.of_nat k - 1)) with k by lia. exact Hxi. }
      assert (Hgc : stan_get (data_county d) (1 + Z.of_nat k) = Ok ci).
      { apply stan_get_Ok. split; [lia |].
        replace (Z.to_nat (1 + Z.of_nat k - 1)) with k by lia. exact Hci. }
      assert (Hga : stan_get (par_a p) ci = Ok a_ci).
      { apply stan_get_Ok. split; [lia | exact Haci]. }
      rewrite Hgx. simpl. rewrite Hgc. simpl. rewrite Hga. simpl.
      unfold stan_set. rewrite decide_True by lia.
      replace (Z.to_nat (1 + Z.of_nat k - 1)) with k by lia. reflexivity.
    + split; [rewrite length_insert; exact Hylen |].
      intros j Hj. destruct (decide (j = k)) as [-> | Hne].
      * exists xi, ci, a_ci. repeat split; try assumption; try lia.
        apply list_lookup_insert_eq. lia.
      * destruct (Hy j) as (xj & cj & aj & ? & ? & ? & ? & Hyj); [lia |].
        exists xj, cj, aj. repeat split; try assumption.
        rewrite list_lookup_insert_ne by congruence. exact Hyj.
  - exists y_hat. split; [exact Hrun |]. split; [lia |].
    intros i Hi. rewrite stan_range_length in Hall.
    destruct (Hall (Z.to_nat (i - 1))) as (xi & ci & a_ci & Hxi & Hci & Hc1 & Haci & Hy);
      [lia |].
    exists xi, ci, a_ci. rewrite !stan_get_Ok. repeat split; (lia || assumption).
Qed.

End TransformedParametersFacts.

(** ** The order of the county plot *)

Section OrderFacts.
Context {floats : Floats}.

Lemma take_in_range {A} (a : list A) (positions : list nat) :
  Forall (fun i => i < length a) positions ->
  take a positions = Ok (omap (fun i => a !! i) positions).
Proof.
  unfold take. induction 1 as [| i positions Hi _ IH]; [reflexivity |].
  destruct (lookup_lt_is_Some_2 a i Hi) as [x Hx].
  simpl. rewrite Hx. simpl. rewrite IH. reflexivity.
Qed.

(** Looking the labels of some rows up gives those rows back, when no
    label of the Series is repeated. *)
Lemma series_getitem_list_rows (s t : series) :
  NoDup (index s) -> t ⊆ s -> series_getitem_list s (index t) = Ok t.
Proof.
  intros Hnd. induction t as [| [k v] t IH]; intros Hsub; [reflexivity |].
  assert (Hin : (k, v) ∈ s) by (apply Hsub; left).
  apply list_elem_of_lookup in Hin as [i Hi].
  simpl. rewrite (rows_labelled_unique s i k v Hnd Hi).
  rewrite IH; [reflexivity |].
  intros r Hr. apply Hsub. right. exact Hr.
Qed.

(** C10: when no county name is repeated and argsort sorts the estimates,
    [order] is a rearrangement of the county names, and
    [unpooled_estimates[order]] holds every row of [unpooled_estimates]
    once, with values that do not decrease. *)
Theorem counties_are_plotted_from_low_to_high (unpooled_estimates : series) :
  NoDup (index unpooled_estimates) ->
  argsort_sorts (values unpooled_estimates) ->
  exists order_ reordered,
    order unpooled_estimates = Ok order_ /\
    order_ ≡ₚ index unpooled_estimates /\
    series_getitem_list unpooled_estimates order_ = Ok reordered /\
    index reordered = order_ /\
    reordered ≡ₚ unpooled_estimates /\
    nondecreasing (values reordered).
Proof.
  intros Hnd [Hperm Hsorted].
  set (s := unpooled_estimates) in *.
  set (positions := np_argsort (values s)) in *.
  unfold values in Hperm. rewrite length_fmap in Hperm.
  pose (sorted := omap (fun i => s !! i) positions).
  assert (Htake : sort_values s = Ok sorted).
  { unfold sort_values. apply take_in_range.
    rewrite Hperm. apply Forall_forall. intros i Hi.
    apply elem_of_seq in Hi. lia. }
  assert (Hrows : sorted ≡ₚ s).
  { unfold sorted. rewrite Hperm. rewrite omap_lookup_all. reflexivity. }
  exists (index sorted), sorted.
  split; [unfold order; fold s; rewrite Htake; reflexivity |].
  split; [unfold index; rewrite Hrows; reflexivity |].
  split.
  { apply series_getitem_list_rows; [exact Hnd |].
    intros r Hr. rewrite <- Hrows. exact Hr. }
  split; [reflexivity |].
  split; [exact Hrows |].
  unfold nondecreasing in *.
  replace (values sorted) with (omap (fun i => values s !! i) positions);
    [exact Hsorted |].
  unfold values, sorted. rewrite list_fmap_omap.
  apply list_omap_ext, Forall_Forall2_diag, Forall_forall.
  intros i _. apply list_lookup_fmap.
Qed.

End OrderFacts.

(** ** When the summaries return and when they raise *)

Section SummaryOutcomes.
Context {floats : Floats} (clean_data : CleanData).

Lemma reduction_length (f : list scalar -> scalar) (a : ndarray2) :
  length (f <$> rows (transpose a)) = shape1 a.
Proof. simpl. rewrite !length_fmap. apply length_seq. Qed.

(** X1: [b0, m0 = pooled_sample['beta'].T.mean(1)] raises KeyError when
    the sample has no entry ['beta'].  When it has one, the statement
    returns exactly when the draws have two columns; with one column or
    none it raises the ValueError of an unpacking that is short of values,
    whose message tells how many it got, and with more than two the
    ValueError of one that has too many. *)
Theorem b0_m0_returns_iff_two_columns
    (σ : store) (pooled_sample : gmap string ndarray_ref) :
  well_stored σ ->
  (pooled_sample !! "beta" = None ->
   b0_m0 pooled_sample σ = Raise (KeyError "beta")) /\
  (forall beta a,
      pooled_sample !! "beta" = Some beta -> contents σ beta = Some a ->
      ((exists out σ', b0_m0 pooled_sample σ = Ok (out, σ'))
       <-> shape1 a = 2) /\
      (shape1 a < 2 ->
       b0_m0 pooled_sample σ
       = Raise (ValueError (not_enough_values (shape1 a)))) /\
      (2 < shape1 a ->
       b0_m0 pooled_sample σ
       = Raise (ValueError "too many values to unpack (expected 2)"))).
Proof.
  intros Hσ. split.
  - intros Hnone. unfold b0_m0, getitem. rewrite Hnone. reflexivity.
  - intros beta a Hbeta Ha.
    rewrite (b0_m0_run _ beta) by assumption. rewrite Ha.
    pose proof (reduction_length np_mean_1d a) as Hlen.
    cbv zeta.
    destruct (np_mean_1d <$> rows (transpose a)) as [| p [| q [| w v]]];
      simpl in Hlen.
    + split; [split |].
      * intros (out & σ' & Hrun). discriminate Hrun.
      * intros Hcols. lia.
      * split; [intros _; rewrite <- Hlen; reflexivity | intros Hcols; lia].
    + split; [split |].
      * intros (out & σ' & Hrun). discriminate Hrun.
      * intros Hcols. lia.
      * split; [intros _; rewrite <- Hlen; reflexivity | intros Hcols; lia].
    + split; [split |].
      * intros _. lia.
      * intros _. eauto.
      * split; intros Hcols; lia.
    + split; [split |].
      * intros (out & σ' & Hrun). discriminate Hrun.
      * intros Hcols. lia.
      * split; [intros Hcols; lia | reflexivity].
Qed.

(** X2: [unpooled_estimates] and [unpooled_se] are built exactly when
    [clean_data.mn_counties] has one name per column of the draws; both
    then carry the county names, in the order of [mn_counties], as their
    index.  Otherwise both constructions raise the ValueError of a Series
    whose values and index differ in length, with the number of columns
    and the number of names in its message. *)
Theorem county_series_need_one_name_per_column
    (σ : store) (a_ref : ndarray_ref) (a : ndarray2) :
  contents σ a_ref = Some a ->
  (length (mn_counties clean_data) = shape1 a ->
   exists estimates se σ1 σ2,
     unpooled_estimates clean_data a_ref σ = Ok (estimates, σ1) /\
     unpooled_se clean_data a_ref σ = Ok (se, σ2) /\
     index estimates = mn_counties clean_data /\
     index se = mn_counties clean_data /\
     values estimates = np_mean_1d <$> (column a <$> seq 0 (shape1 a)) /\
     values se = np_std_1d <$> (column a <$> seq 0 (shape1 a))) /\
  (length (mn_counties clean_data) <> shape1 a ->
   unpooled_estimates clean_data a_ref σ
   = Raise (ValueError (length_mismatch (shape1 a)
                          (length (mn_counties clean_data)))) /\
   unpooled_se clean_data a_ref σ
   = Raise (ValueError (length_mismatch (shape1 a)
                          (length (mn_counties clean_data))))).
Proof.
  intros Ha. unfold unpooled_estimates, unpooled_se, ndarray_mean, ndarray_std.
  rewrite !series_of_reduction_run, Ha. cbv zeta.
  rewrite !reduction_length. split; intros Hlen.
  - rewrite !decide_True by (symmetry; exact Hlen).
    do 4 eexists. do 2 (split; [reflexivity |]).
    unfold index, values. simpl.
    rewrite !fst_zip, !snd_zip
      by (rewrite !length_fmap, length_seq; lia).
    repeat split; reflexivity.
  - rewrite !decide_False by (intros Heq; apply Hlen; symmetry; exact Heq).
    split; reflexivity.
Qed.

(** A Series built from a reduction leaves the store as it was but for
    the array of the result. *)
Lemma series_of_reduction_frame (f : list scalar -> scalar)
    (labels : list string) (a_ref : ndarray_ref) (σ σ' : store)
    (out : series) :
  (means ← ndarray_reduce f a_ref 0; pd_Series means labels) σ
  = Ok (out, σ') ->
  exists v, σ' = <[fresh (dom σ) := Buffer1 v]> σ.
Proof.
  rewrite series_of_reduction_run.
  destruct (contents σ a_ref) as [a |]; [| discriminate]. cbv zeta.
  case_decide; [| discriminate]. intros [= <- <-]. eauto.
Qed.

End SummaryOutcomes.

(** ** When the transformed parameters block runs to its end *)

Section TransformedParametersOutcomes.
Context {floats : Floats}.

(** The block on inputs whose rows are in range. *)
Lemma transformed_parameters_run (d : unpooled_inputs) (p : unpooled_draw) :
  rows_in_range d p ->
  exists y_hat,
    transformed_parameters d p = Ok y_hat /\
    length y_hat = Z.to_nat (data_N d) /\
    forall i xi ci a_ci,
      (1 <= i <= data_N d)%Z ->
      stan_get (data_x d) i = Ok xi ->
      stan_get (data_county d) i = Ok ci ->
      stan_get (par_a p) ci = Ok a_ci ->
      y_hat !! Z.to_nat (i - 1)
      = Some (Some (fadd (fmul (par_beta p) xi) a_ci)).
Proof.
  intros Hrows. unfold transformed_parameters.
  pose (Inv := fun (k : nat) (y : list (option scalar)) =>
    length y = Z.to_nat (data_N d) /\
    forall i xi ci a_ci,
      (1 <= i <= Z.of_nat k)%Z ->
      stan_get (data_x d) i = Ok xi ->
      stan_get (data_county d) i = Ok ci ->
      stan_get (par_a p) ci = Ok a_ci ->
      y !! Z.to_nat (i - 1)
      = Some (Some (fadd (fmul (par_beta p) xi) a_ci))).
  destruct (stan_for_invariant (assign_y_hat d p) Inv
              (stan_range 1 (data_N d)) (declare_vector (data_N d)))
    as (y_hat & Hrun & Hlen & Hall).
  - split; [apply length_replicate | intros; lia].
  - intros k i y Hi [Hylen Hy].
    assert (Hk : k < Z.to_nat (data_N d)).
    { apply lookup_lt_Some in Hi. rewrite stan_range_length in Hi. exact Hi. }
    rewrite stan_range_lookup in Hi by lia. injection Hi as <-.
    destruct (Hrows (1 + Z.of_nat k)%Z) as (xi & ci & a_ci & Hx & Hc & Ha);
      [lia |].
    exists (<[k := Some (fadd (fmul (par_beta p) xi) a_ci)]> y). split.
    + unfold assign_y_hat. rewrite Hx. simpl. rewrite Hc. simpl.
      rewrite Ha. simpl. unfold stan_set. rewrite decide_True by lia.
      replace (Z.to_nat (1 + Z.of_nat k - 1)) with k by lia. reflexivity.
    + split; [rewrite length_insert; exact Hylen |].
      intros i xi' ci' a_ci' Hi Hx' Hc' Ha'.
      destruct (decide (i = 1 + Z.of_nat k)%Z) as [-> | Hne].
      * rewrite Hx in Hx'. injection Hx' as <-.
        rewrite Hc in Hc'. injection Hc' as <-.
        rewrite Ha in Ha'. injection Ha' as <-.
        replace (Z.to_nat (1 + Z.of_nat k - 1)) with k by lia.
        apply list_lookup_insert_eq. lia.
      * rewrite list_lookup_insert_ne by lia.
        apply (Hy i xi' ci' a_ci'); (lia || assumption).
  - exists y_hat. split; [exact Hrun |]. split; [exact Hlen |].
    rewrite stan_range_length in Hall.
    intros i xi ci a_ci Hi Hx Hc Ha.
    apply (Hall i xi ci a_ci); (lia || assumption).
Qed.

End TransformedParametersOutcomes.

(** ** From the observation table to the predictions *)

Section BindingThenModel.
Context {floats : Floats} (clean_data : CleanData).

(** X5: binding and model together.  When the arrays of the data provider
    have one length, the county codes lie in 0..84 and a draw has 85
    intercepts, the data dictionary holds the inputs of the model, the
    transformed parameters block runs on them to its end, and for every
    row [r] of the observation table, counted from 0, [y_hat] holds
    [beta * floor_measure[r] + a[county[r]]], with [a] counted from 0 by
    the county code: the offset of the binding and the 1-based indexing of
    the model cancel. *)
Theorem y_hat_of_the_observation_table (p : unpooled_draw) :
  length (floor_measure clean_data) = length (log_radon clean_data) ->
  length (county clean_data) = length (log_radon clean_data) ->
  Forall (fun c => 0 <= c <= 84)%Z (county clean_data) ->
  length (par_a p) = 85 ->
  exists d y_hat,
    inputs_of_dict (unpooled_data_dict clean_data) = Some d /\
    transformed_parameters d p = Ok y_hat /\
    length y_hat = length (log_radon clean_data) /\
    forall r x c,
      floor_measure clean_data !! r = Some x ->
      county clean_data !! r = Some c ->
      exists a_c,
        par_a p !! Z.to_nat c = Some a_c /\
        y_hat !! r = Some (Some (fadd (fmul (par_beta p) x) a_c)).
Proof.
  intros Hx Hc Hcodes Ha.
  set (d := {| data_N := len (log_radon clean_data);
               data_county := array_add_int (county clean_data) 1;
               data_x := floor_measure clean_data;
               data_y := log_radon clean_data |}).
  assert (Hd : inputs_of_dict (unpooled_data_dict clean_data) = Some d).
  { unfold inputs_of_dict. rewrite !unpooled_lookup. reflexivity. }
  assert (Hrow : forall r x c,
             floor_measure clean_data !! r = Some x ->
             county clean_data !! r = Some c ->
             exists a_c,
               par_a p !! Z.to_nat c = Some a_c /\
               stan_get (data_x d) (Z.of_nat r + 1) = Ok x /\
               stan_get (data_county d) (Z.of_nat r + 1) = Ok (c + 1)%Z /\
               stan_get (par_a p) (c + 1) = Ok a_c).
  { intros r x c Hrx Hrc.
    assert (Hcr : (0 <= c <= 84)%Z).
    { eapply Forall_lookup_1 in Hcodes; [exact Hcodes | exact Hrc]. }
    destruct (lookup_lt_is_Some_2 (par_a p) (Z.to_nat c)) as [a_c Hac];
      [lia |].
    exists a_c. split; [exact Hac |]. rewrite !stan_get_Ok. simpl.
    replace (Z.to_nat (Z.of_nat r + 1 - 1)) with r by lia.
    replace (Z.to_nat (c + 1 - 1)) with (Z.to_nat c) by lia.
    rewrite array_add_int_lookup, Hrc. simpl.
    rewrite county_offset_does_not_wrap by exact Hcr.
    repeat split; (lia || assumption || reflexivity). }
  assert (Hrows : rows_in_range d p).
  { intros i Hi. simpl in Hi. unfold len in Hi.
    destruct (lookup_lt_is_Some_2 (floor_measure clean_data)
                (Z.to_nat (i - 1))) as [x Hrx]; [lia |].
    destruct (lookup_lt_is_Some_2 (county clean_data)
                (Z.to_nat (i - 1))) as [c Hrc]; [lia |].
    destruct (Hrow _ x c Hrx Hrc) as (a_c & _ & Hgx & Hgc & Hga).
    replace (Z.of_nat (Z.to_nat (i - 1)) + 1)%Z with i in * by lia.
    eauto 6. }
  destruct (transformed_parameters_run d p Hrows)
    as (y_hat & Hrun & Hlen & Hall).
  exists d, y_hat. split; [exact Hd |]. split; [exact Hrun |].
  split; [rewrite Hlen; simpl; unfold len; lia |].
  intros r x c Hrx Hrc.
  destruct (Hrow r x c Hrx Hrc) as (a_c & Hac & Hgx & Hgc & Hga).
  exists a_c. split; [exact Hac |].
  replace r with (Z.to_nat (Z.of_nat r + 1 - 1)) at 1 by lia.
  apply (Hall _ x (c + 1)%Z a_c); try assumption.
  simpl. unfold len. apply lookup_lt_Some in Hrx. lia.
Qed.

End BindingThenModel.

(** ** What is drawn *)

Section PlotFacts.
Context {floats : Floats} {pyplot : Pyplot} (clean_data : CleanData).

Lemma for_each_fmap {A} (body : A -> M unit) (f : A -> plot_call)
    (items : list A) :
  (forall x, body x = plt (f x)) ->
  for_each body items = for_each plt (f <$> items).
Proof.
  intros Hbody. induction items as [| x items IH]; [reflexivity |].
  simpl. rewrite Hbody, IH. reflexivity.
Qed.

Lemma for_each_app (calls more : list plot_call) (σ : store) :
  for_each plt (calls ++ more) σ
  = (for_each plt calls;; for_each plt more) σ.
Proof.
  revert σ. induction calls as [| c calls IH]; intros σ; [reflexivity |].
  simpl. unfold mbind, M_bind.
  destruct (plt c σ) as [[[] σ'] | e]; [| reflexivity].
  rewrite IH. reflexivity.
Qed.

Lemma for_each_returns (calls : list plot_call) (σ : store) :
  plt_returns -> exists σ', for_each plt calls σ = Ok (tt, σ').
Proof.
  intros Hplt. revert σ. induction calls as [| c calls IH]; intros σ.
  - exists σ. reflexivity.
  - destruct (Hplt c σ) as [σ1 Hc]. destruct (IH σ1) as [σ' Hrest].
    exists σ'. simpl. unfold mbind, M_bind. rewrite Hc. exact Hrest.
Qed.

Ltac step_plt :=
  match goal with
  | |- context [plt ?c ?σ] =>
      destruct (plt c σ) as [[[] ?] | ?]; simpl; try reflexivity
  end.

Lemma pooled_plot_as_calls (b0 m0 : scalar) (σ : store) :
  pooled_plot clean_data b0 m0 σ
  = for_each plt (pooled_plot_calls clean_data b0 m0) σ.
Proof.
  unfold pooled_plot, pooled_plot_calls. simpl.
  unfold mbind, M_bind, mret, M_ret. repeat step_plt.
Qed.

Lemma lift_ok_bind {A B} (r : result A) (a : A) (f : A -> M B) (σ : store) :
  r = Ok a -> (lift r ≫= f) σ = f a σ.
Proof. intros ->. reflexivity. Qed.

Lemma unpooled_plot_as_calls (estimates se : series) (order_ : list string)
    (ordered ordered_se : series) (σ : store) :
  order estimates = Ok order_ ->
  series_getitem_list estimates order_ = Ok ordered ->
  series_getitem_list se order_ = Ok ordered_se ->
  unpooled_plot estimates se σ
  = for_each plt (unpooled_plot_calls (length estimates)
                    (values ordered) (values ordered_se)) σ.
Proof.
  intros Horder Hest Hse. unfold unpooled_plot, unpooled_plot_calls.
  rewrite (lift_ok_bind _ _ _ _ Horder), (lift_ok_bind _ _ _ _ Hest).
  cbn [for_each].
  destruct (plt (Scatter (CInt <$> range (length estimates))
                         (CFloat <$> values ordered)) σ)
    as [[[] σ1] | e] eqn:Hscatter.
  2: { rewrite !(bind_raise _ _ _ _ Hscatter). reflexivity. }
  rewrite !(bind_ok _ _ _ _ _ Hscatter).
  rewrite (lift_ok_bind _ _ _ _ Hest), (lift_ok_bind _ _ _ _ Hse).
  rewrite for_each_app.
  rewrite (for_each_fmap _ error_bar)
    by (intros [[i m] s]; reflexivity).
  destruct (for_each plt
              (error_bar <$> zip3 (range (length estimates))
                               (values ordered) (values ordered_se)) σ1)
    as [[[] σ2] | e] eqn:Hbars.
  2: { rewrite !(bind_raise _ _ _ _ Hbars). reflexivity. }
  rewrite !(bind_ok _ _ _ _ _ Hbars).
  simpl. unfold mbind, M_bind, mret, M_ret. repeat step_plt.
Qed.

(** X6: the dashed line of the pooled plot is the mean of the pooled
    model, [beta[1] + beta[2] * x], taken at [beta[1] = b0],
    [beta[2] = m0] and [x = xvals], whenever float addition commutes: [b0]
    is used as the intercept and [m0] as the slope.  The cell makes five
    plotting calls, of which the line is the second, and raises only what
    a plotting call raises. *)
Theorem fitted_line_is_the_pooled_mean (b0 m0 : scalar) :
  (forall a b, fadd a b = fadd b a) ->
  (forall σ, pooled_plot clean_data b0 m0 σ
             = for_each plt (pooled_plot_calls clean_data b0 m0) σ) /\
  exists line,
    let xvals := np_linspace (float_literal (-1) 10) (float_literal 12 10) in
    pooled_mean [b0; m0] xvals = Ok line /\
    length line = length xvals /\
    length (pooled_plot_calls clean_data b0 m0) = 5 /\
    pooled_plot_calls clean_data b0 m0 !! 1
    = Some (Plot (CFloat <$> xvals) (CFloat <$> line) "r--").
Proof.
  intros Hcomm. split; [apply pooled_plot_as_calls |].
  eexists. split; [reflexivity |]. split; [apply length_fmap |].
  split; [reflexivity |]. simpl. do 3 f_equal.
  apply list_fmap_ext. intros i x _. apply Hcomm.
Qed.

End PlotFacts.

(** ** The county plot, bar by bar *)

Section CountyPlotFacts.
Context {floats : Floats} {pyplot : Pyplot}.

Lemma omap_lookup_positions {A} (l : list A) (positions : list nat) (k : nat) :
  Forall (fun i => i < length l) positions ->
  omap (fun i => l !! i) positions !! k
  = positions !! k ≫= (fun i => l !! i).
Proof.
  intros Hin. revert k. induction Hin as [| i positions Hi _ IH]; intros k.
  - reflexivity.
  - destruct (lookup_lt_is_Some_2 l i Hi) as [x Hx].
    simpl. rewrite Hx. destruct k as [| k]; simpl; [by rewrite Hx | apply IH].
Qed.

Lemma fmap_omap_lookup {A B} (f : A -> B) (l : list A) (positions : list nat) :
  f <$> omap (fun i => l !! i) positions
  = omap (fun i => (f <$> l) !! i) positions.
Proof.
  rewrite list_fmap_omap.
  apply list_omap_ext, Forall_Forall2_diag, Forall_forall.
  intros i _. symmetry. apply list_lookup_fmap.
Qed.

Lemma omap_lookup_subseteq {A} (l : list A) (positions : list nat) :
  omap (fun i => l !! i) positions ⊆ l.
Proof.
  intros x Hx. apply list_elem_of_omap in Hx as (i & _ & Hi).
  eapply list_elem_of_lookup_2, Hi.
Qed.

Lemma zip3_lookup {A B C} (l1 : list A) (l2 : list B) (l3 : list C)
    (k : nat) (a : A) (b : B) (c : C) :
  l1 !! k = Some a -> l2 !! k = Some b -> l3 !! k = Some c ->
  zip3 l1 l2 l3 !! k = Some (a, b, c).
Proof.
  revert l2 l3 k.
  induction l1 as [| a1 l1 IH]; intros [| b1 l2] [| c1 l3] [| k];
    simpl; try discriminate.
  - intros [= ->] [= ->] [= ->]. reflexivity.
  - apply IH.
Qed.

Lemma range_lookup (n k : nat) : k < n -> range n !! k = Some (Z.of_nat k).
Proof.
  intros Hk. unfold range. rewrite list_lookup_fmap, lookup_seq_lt by exact Hk.
  reflexivity.
Qed.

(** The rows of two Series with one index, taken in the order argsort
    gives for the values of the first. *)
Lemma ordered_series (estimates se : series) :
  NoDup (index estimates) -> index se = index estimates ->
  argsort_sorts (values estimates) ->
  let positions := np_argsort (values estimates) in
  let ordered := omap (fun i => estimates !! i) positions in
  let ordered_se := omap (fun i => se !! i) positions in
  Forall (fun i => i < length estimates) positions /\
  order estimates = Ok (index ordered) /\
  series_getitem_list estimates (index ordered) = Ok ordered /\
  series_getitem_list se (index ordered) = Ok ordered_se /\
  length ordered = length estimates /\
  length ordered_se = length estimates /\
  nondecreasing (values ordered).
Proof.
  intros Hnd Hindex [Hperm Hsorted] positions ordered ordered_se.
  fold positions in Hperm, Hsorted.
  unfold values in Hperm. rewrite length_fmap in Hperm.
  assert (Hlen : length se = length estimates).
  { apply (f_equal length) in Hindex. unfold index in Hindex.
    rewrite !length_fmap in Hindex. exact Hindex. }
  assert (Hin : Forall (fun i => i < length estimates) positions).
  { apply Forall_forall. intros i Hi. rewrite Hperm in Hi.
    apply elem_of_seq in Hi. lia. }
  assert (Hrows : ordered ≡ₚ estimates).
  { unfold ordered. rewrite Hperm. rewrite omap_lookup_all. reflexivity. }
  assert (Hrows_se : ordered_se ≡ₚ se).
  { unfold ordered_se. rewrite Hperm, <- Hlen.
    rewrite omap_lookup_all. reflexivity. }
  assert (Hsame : index ordered_se = index ordered).
  { unfold index, ordered, ordered_se. rewrite !fmap_omap_lookup.
    unfold index in Hindex. rewrite Hindex. reflexivity. }
  split; [exact Hin |]. split.
  { unfold order, sort_values. fold positions.
    rewrite take_in_range by exact Hin. reflexivity. }
  split.
  { apply series_getitem_list_rows; [exact Hnd |].
    apply omap_lookup_subseteq. }
  split.
  { rewrite <- Hsame. apply series_getitem_list_rows.
    - rewrite Hindex. exact Hnd.
    - apply omap_lookup_subseteq. }
  split; [rewrite Hrows; reflexivity |].
  split; [rewrite Hrows_se; exact Hlen |].
  unfold nondecreasing in *. unfold values, ordered.
  rewrite fmap_omap_lookup. exact Hsorted.
Qed.

(** X7: in the county plot every bar stands for one county and is drawn
    with that county's own numbers.  When no county name is repeated, both
    Series carry the same index and argsort sorts the estimates, the cell
    raises only what a plotting call raises; it draws one bar per county;
    and the bar at position [k] belongs to the county at position [k] of
    [order], runs from that county's estimate minus its standard error to
    the estimate plus the standard error, the estimates not decreasing
    from bar to bar. *)
Theorem error_bars_follow_the_order (estimates se : series) :
  NoDup (index estimates) -> index se = index estimates ->
  argsort_sorts (values estimates) ->
  exists order_ ms ses,
    order estimates = Ok order_ /\
    (forall σ,
        unpooled_plot estimates se σ
        = for_each plt (unpooled_plot_calls (length estimates) ms ses) σ) /\
    length order_ = length estimates /\
    length (zip3 (range (length estimates)) ms ses) = length estimates /\
    nondecreasing ms /\
    forall k name,
      order_ !! k = Some name ->
      exists m s,
        series_getitem estimates name = Ok [m] /\
        series_getitem se name = Ok [s] /\
        ms !! k = Some m /\ ses !! k = Some s /\
        (error_bar <$> zip3 (range (length estimates)) ms ses) !! k
        = Some (Plot [CInt (Z.of_nat k); CInt (Z.of_nat k)]
                     [CFloat (fsub m s); CFloat (fadd m s)] "b-").
Proof.
  intros Hnd Hindex Hargsort.
  destruct (ordered_series estimates se Hnd Hindex Hargsort)
    as (Hin & Horder & Hest & Hse & Hlen & Hlen_se & Hsorted).
  set (positions := np_argsort (values estimates)) in *.
  set (ordered := omap (fun i => estimates !! i) positions) in *.
  set (ordered_se := omap (fun i => se !! i) positions) in *.
  assert (Hrank : forall k name,
             index ordered !! k = Some name ->
             exists i m s,
               estimates !! i = Some (name, m) /\ se !! i = Some (name, s) /\
               values ordered !! k = Some m /\
               values ordered_se !! k = Some s).
  { intros k name Hk. unfold index in Hk.
    apply list_lookup_fmap_Some in Hk as ([name' m] & -> & Hrow).
    simpl. pose proof Hrow as Hpos. unfold ordered in Hpos.
    rewrite omap_lookup_positions in Hpos by exact Hin.
    destruct (positions !! k) as [i |] eqn:Hi; [| discriminate].
    simpl in Hpos.
    assert (His : is_Some (se !! i)).
    { apply lookup_lt_is_Some_2. apply lookup_lt_Some in Hpos.
      apply (f_equal length) in Hindex. unfold index in Hindex.
      rewrite !length_fmap in Hindex. lia. }
    destruct His as [[name2 s] Hs].
    assert (name2 = name').
    { assert (Hl : index se !! i = Some name2).
      { unfold index. rewrite list_lookup_fmap, Hs. reflexivity. }
      rewrite Hindex in Hl. unfold index in Hl.
      rewrite list_lookup_fmap, Hpos in Hl. injection Hl as <-. reflexivity. }
    subst name2. exists i, m, s. split; [exact Hpos |]. split; [exact Hs |].
    unfold values. rewrite !list_lookup_fmap, Hrow. split; [reflexivity |].
    unfold ordered_se.
    rewrite omap_lookup_positions, Hi.
    - simpl. rewrite Hs. reflexivity.
    - eapply Forall_impl; [exact Hin |]. simpl. intros j Hj.
      apply (f_equal length) in Hindex. unfold index in Hindex.
      rewrite !length_fmap in Hindex. lia. }
  exists (index ordered), (values ordered), (values ordered_se).
  split; [exact Horder |].
  split; [intros σ; apply (unpooled_plot_as_calls _ _ (index ordered));
          assumption |].
  split; [unfold index; rewrite length_fmap; exact Hlen |].
  split.
  { assert (Hz : forall (l1 : list Z) (l2 l3 : list scalar),
               length l2 = length l1 -> length l3 = length l1 ->
               length (zip3 l1 l2 l3) = length l1).
    { induction l1 as [| a l1 IH]; intros [| b l2] [| c l3]; simpl;
        intros; try lia. rewrite IH; lia. }
    rewrite Hz; unfold range, values; rewrite !length_fmap, ?length_seq;
      lia. }
  split; [exact Hsorted |].
  intros k name Hk.
  destruct (Hrank k name Hk) as (i & m & s & Hei & Hsi & Hm & Hs).
  exists m, s. split.
  { unfold series_getitem.
    rewrite (rows_labelled_unique estimates i name m Hnd Hei). reflexivity. }
  split.
  { unfold series_getitem.
    rewrite (rows_labelled_unique se i name s); [reflexivity | | exact Hsi].
    rewrite Hindex. exact Hnd. }
  split; [exact Hm |]. split; [exact Hs |].
  rewrite list_lookup_fmap.
  rewrite (zip3_lookup _ _ _ k (Z.of_nat k) m s); [reflexivity | | exact Hm | exact Hs].
  apply range_lookup. apply lookup_lt_Some in Hm.
  unfold values in Hm. rewrite length_fmap in Hm. lia.
Qed.

End CountyPlotFacts.

(** ** Notebooks that run to their end *)

Section NotebookRuns.
Context {floats : Floats} {engine : Engine} {pyplot : Pyplot}
  (clean_data : CleanData).

(** X8: the pooled notebook from its first cell to its last.  When the
    engine returns a fit, [extract] returns a sample whose ['beta'] holds
    draws of two columns, and the plotting library draws what it is given,
    the notebook raises nothing and ends with [b0] the mean of the first
    column and [m0] the mean of the second. *)
Theorem pooled_notebook_returns_the_means
    (σ σ1 σ2 : store) (f : fit) (pooled_sample : gmap string ndarray_ref)
    (beta : ndarray_ref) (draws : ndarray2) :
  plt_returns ->
  pooled_fit clean_data σ = Ok (f, σ1) ->
  fit_extract f true σ1 = Ok (pooled_sample, σ2) ->
  well_stored σ2 ->
  pooled_sample !! "beta" = Some beta ->
  contents σ2 beta = Some draws ->
  shape1 draws = 2 ->
  exists σ',
    pooled_notebook clean_data σ
    = Ok ((np_mean_1d (column draws 0), np_mean_1d (column draws 1)), σ').
Proof.
  intros Hplt Hfit Hextract Hσ2 Hbeta Hdraws Hcols.
  assert (Hget : getitem pooled_sample "beta" σ2 = Ok (beta, σ2)).
  { unfold getitem. rewrite Hbeta. reflexivity. }
  pose proof (b0_m0_run pooled_sample beta σ2 Hσ2 Hbeta) as Hsum.
  rewrite Hdraws in Hsum. cbv zeta in Hsum. simpl in Hsum.
  rewrite Hcols in Hsum. simpl in Hsum.
  destruct (for_each_returns
              (pooled_plot_calls clean_data (np_mean_1d (column draws 0))
                 (np_mean_1d (column draws 1)))
              (<[fresh (dom σ2) :=
                   Buffer1 [np_mean_1d (column draws 0);
                            np_mean_1d (column draws 1)]]> σ2) Hplt)
    as [σ' Hplot].
  rewrite <- pooled_plot_as_calls in Hplot.
  exists σ'. unfold pooled_notebook.
  rewrite (bind_ok _ _ _ _ _ Hfit), (bind_ok _ _ _ _ _ Hextract),
    (bind_ok _ _ _ _ _ Hget), (bind_ok _ _ _ _ _ Hsum),
    (bind_ok _ _ _ _ _ Hplot).
  reflexivity.
Qed.

(** X9: the unpooled notebook from its first cell to its last.  When the
    engine returns a fit, both indexings [unpooled_fit['a']] give arrays
    that hold the same draws, [clean_data.mn_counties] has one name per
    column of the draws and no name twice, argsort sorts the column means
    and the plotting library draws what it is given, the notebook raises
    nothing and ends with [unpooled_estimates] and [unpooled_se] pairing
    the county names with the means and the standard deviations of the
    columns. *)
Theorem unpooled_notebook_returns_the_county_series
    (σ σ1 : store) (f : fit) (draws : ndarray2) :
  plt_returns ->
  unpooled_fit clean_data σ = Ok (f, σ1) ->
  indexing_gives f "a" draws σ1 ->
  (forall a σ2 estimates σ3,
      fit_getitem f "a" σ1 = Ok (a, σ2) ->
      unpooled_estimates clean_data a σ2 = Ok (estimates, σ3) ->
      indexing_gives f "a" draws σ3) ->
  length (mn_counties clean_data) = shape1 draws ->
  NoDup (mn_counties clean_data) ->
  argsort_sorts (np_mean_1d <$> (column draws <$> seq 0 (shape1 draws))) ->
  exists σ',
    unpooled_notebook clean_data σ
    = Ok ((zip (mn_counties clean_data)
               (np_mean_1d <$> (column draws <$> seq 0 (shape1 draws))),
           zip (mn_counties clean_data)
               (np_std_1d <$> (column draws <$> seq 0 (shape1 draws)))), σ').
Proof.
  intros Hplt Hfit (a & σ2 & Hget & Ha) Hagain Hlen Hnd Hargsort.
  set (means := np_mean_1d <$> (column draws <$> seq 0 (shape1 draws))) in *.
  set (stds := np_std_1d <$> (column draws <$> seq 0 (shape1 draws))).
  assert (Hmeans : length means = length (mn_counties clean_data)).
  { unfold means. rewrite !length_fmap, length_seq. lia. }
  assert (Hstds : length stds = length (mn_counties clean_data)).
  { unfold stds. rewrite !length_fmap, length_seq. lia. }
  assert (Hest : unpooled_estimates clean_data a σ2
                 = Ok (zip (mn_counties clean_data) means,
                       <[fresh (dom σ2) := Buffer1 means]> σ2)).
  { unfold unpooled_estimates, ndarray_mean.
    rewrite series_of_reduction_run, Ha. cbv zeta. simpl. fold means.
    rewrite decide_True by exact Hmeans. reflexivity. }
  destruct (Hagain _ _ _ _ Hget Hest) as (a' & σ4 & Hget' & Ha').
  assert (Hse : unpooled_se clean_data a' σ4
                = Ok (zip (mn_counties clean_data) stds,
                      <[fresh (dom σ4) := Buffer1 stds]> σ4)).
  { unfold unpooled_se, ndarray_std.
    rewrite series_of_reduction_run, Ha'. cbv zeta. simpl. fold stds.
    rewrite decide_True by exact Hstds. reflexivity. }
  set (estimates := zip (mn_counties clean_data) means) in *.
  set (se := zip (mn_counties clean_data) stds) in *.
  assert (Hsummaries : unpooled_summaries clean_data f σ1
            = Ok ((estimates, se), <[fresh (dom σ4) := Buffer1 stds]> σ4)).
  { unfold unpooled_summaries.
    rewrite (bind_ok _ _ _ _ _ Hget), (bind_ok _ _ _ _ _ Hest),
      (bind_ok _ _ _ _ _ Hget'), (bind_ok _ _ _ _ _ Hse).
    reflexivity. }
  assert (Hindex : index estimates = mn_counties clean_data).
  { unfold index, estimates. apply fst_zip. lia. }
  assert (Hindex_se : index se = index estimates).
  { rewrite Hindex. unfold index, se. apply fst_zip. lia. }
  assert (Hvalues : values estimates = means).
  { unfold values, estimates. apply snd_zip. lia. }
  destruct (ordered_series estimates se)
    as (_ & Horder & Hordered & Hordered_se & _).
  { rewrite Hindex. exact Hnd. }
  { exact Hindex_se. }
  { rewrite Hvalues. exact Hargsort. }
  destruct (for_each_returns
              (unpooled_plot_calls (length estimates)
                 (values (omap (fun i => estimates !! i)
                            (np_argsort (values estimates))))
                 (values (omap (fun i => se !! i)
                            (np_argsort (values estimates)))))
              (<[fresh (dom σ4) := Buffer1 stds]> σ4) Hplt)
    as [σ' Hplot].
  rewrite <- (unpooled_plot_as_calls _ _ _ _ _ _ Horder Hordered Hordered_se)
    in Hplot.
  exists σ'. unfold unpooled_notebook.
  rewrite (bind_ok _ _ _ _ _ Hfit), (bind_ok _ _ _ _ _ Hsummaries),
    (bind_ok _ _ _ _ _ Hplot).
  reflexivity.
Qed.

End NotebookRuns.

(** ** The rational instance *)

Section RationalFacts.
Import QArith.

(** The mean of the rational instance is the sum over the count. *)
Lemma Qmean_is_sum_over_count (l : list Q) :
  (Rational.Qmean l == Rational.Qsum l / inject_Z (Z.of_nat (length l)))%Q.
Proof. apply Qred_correct. Qed.

End RationalFacts.

(** ** The theorems at work on made-up data *)

Section Runs.
Import Rational.

Lemma one_array_well_stored (a : ndarray2) :
  well_shaped a -> well_stored (one_array a).
Proof.
  intros Ha l b Hl. unfold one_array in Hl.
  apply lookup_singleton_Some in Hl as [_ Hb]. injection Hb as <-. exact Ha.
Defined.

Lemma beta_draws_well_shaped : well_shaped beta_draws.
Proof. split; [reflexivity | repeat constructor]. Defined.

Lemma a_draws_well_shaped : well_shaped a_draws.
Proof. split; [reflexivity | repeat constructor]. Defined.

Lemma two_arrays_well_stored : well_stored two_arrays.
Proof.
  intros l b Hl. unfold two_arrays in Hl.
  apply lookup_insert_Some in Hl as [[_ Hb] | [_ Hl]].
  - injection Hb as <-. exact a_draws_well_shaped.
  - exact (one_array_well_stored _ beta_draws_well_shaped l b Hl).
Defined.


(** C3 on the three rows: codes 0, 84 and 3. *)
Lemma county_bound_within_declared_range_run :
  exists decl lo hi bound,
    Stan.find_declaration "county" Unpooled.unpooled_data = Some decl /\
    Stan.decl_lower decl = Some lo /\ Stan.decl_upper decl = Some hi /\
    lo = 1%Z /\ hi = 85%Z /\
    unpooled_data_dict three_rows !! "county" = Some (BIntArray bound) /\
    Forall (fun v => lo <= v <= hi)%Z bound.
Proof.
  apply (county_bound_within_declared_range three_rows).
  simpl. repeat constructor; lia.
Defined.

(** C4 on the three rows, for the unpooled dictionary. *)
Lemma bound_arrays_have_length_N_run :
  exists n,
    is_Some (Stan.find_declaration "N" (data_block_of UnpooledNotebook)) /\
    data_dict_of three_rows UnpooledNotebook !! "N" = Some (BInt n) /\
    forall k v m,
      data_dict_of three_rows UnpooledNotebook !! k = Some v ->
      bound_length v = Some m -> n = Z.of_nat m.
Proof.
  apply (bound_arrays_have_length_N three_rows UnpooledNotebook);
    reflexivity.
Defined.

(** C6 on three draws of [beta] and two draws of [a]: the means of the
    columns of [beta] are 3 and 5. *)
Lemma summaries_are_column_statistics_run :
  (exists σ',
      b0_m0 {[ "beta" := whole ]} two_arrays = Ok (beta_means, σ')) /\
  (exists estimates se σ1 σ2,
      unpooled_estimates three_rows second two_arrays = Ok (estimates, σ1) /\
      unpooled_se three_rows second two_arrays = Ok (se, σ2) /\
      forall j name,
        mn_counties three_rows !! j = Some name ->
        series_getitem estimates name = Ok [np_mean_1d (column a_draws j)] /\
        series_getitem se name = Ok [np_std_1d (column a_draws j)]).
Proof.
  apply (summaries_are_column_statistics three_rows two_arrays
           {[ "beta" := whole ]} whole second beta_draws a_draws).
  - exact two_arrays_well_stored.
  - reflexivity.
  - reflexivity.
  - reflexivity.
  - reflexivity.
  - reflexivity.
  - apply (bool_decide_unpack _). vm_compute. exact I.
Defined.

(** C7 on three draws of [beta]: the first run returns, and the run after
    it returns the same. *)
Lemma summaries_are_reproducible_run :
  exists out σ',
    b0_m0 {[ "beta" := whole ]} (one_array beta_draws) = Ok (out, σ') /\
    contents σ' whole = contents (one_array beta_draws) whole /\
    exists σ'', b0_m0 {[ "beta" := whole ]} σ' = Ok (out, σ'').
Proof.
  assert (Hsample : ({[ "beta" := whole ]} : gmap string ndarray_ref)
                      !! "beta" = Some whole) by reflexivity.
  destruct (summaries_are_reproducible three_rows (one_array beta_draws)
              {[ "beta" := whole ]} whole
              (one_array_well_stored _ beta_draws_well_shaped) Hsample)
    as (Hrerun & _).
  eexists _, _. split; [reflexivity |]. apply Hrerun. reflexivity.
Defined.

(** C8 with an engine that rejects the program. *)
Lemma exception_reaches_the_caller_run :
  pooled_notebook (engine := rejecting_engine) (pyplot := blank_pyplot)
    three_rows ∅ = Raise rejected.
Proof.
  apply (exception_reaches_the_caller (engine := rejecting_engine)
           (pyplot := blank_pyplot) three_rows PooledNotebook ∅ rejected).
  apply pooled_raises_in_fit. reflexivity.
Defined.

(** C9 on the inputs the unpooled dictionary binds for the three rows. *)
Lemma y_hat_run :
  inputs_of_dict (unpooled_data_dict three_rows) = Some three_inputs /\
  exists y_hat,
    transformed_parameters three_inputs a_draw = Ok y_hat /\
    len y_hat = 3%Z /\
    forall i, (1 <= i <= 3)%Z ->
      exists xi ci a_ci,
        stan_get (data_x three_inputs) i = Ok xi /\
        stan_get (data_county three_inputs) i = Ok ci /\
        stan_get (par_a a_draw) ci = Ok a_ci /\
        stan_get y_hat i = Ok (Some (fadd (fmul (par_beta a_draw) xi) a_ci)).
Proof.
  split; [reflexivity |].
  apply (y_hat_is_slope_times_x_plus_county_intercept three_inputs a_draw).
  - simpl. lia.
  - reflexivity.
  - reflexivity.
  - simpl. repeat constructor; lia.
  - reflexivity.
Defined.

(** C10 on three counties whose estimates are 4, 1 and 5/2. *)
Lemma counties_are_plotted_from_low_to_high_run :
  exists order_ reordered,
    order three_estimates = Ok order_ /\
    order_ ≡ₚ index three_estimates /\
    series_getitem_list three_estimates order_ = Ok reordered /\
    index reordered = order_ /\
    reordered ≡ₚ three_estimates /\
    nondecreasing (values reordered).
Proof.
  apply (counties_are_plotted_from_low_to_high three_estimates).
  - apply (bool_decide_unpack _). vm_compute. exact I.
  - split.
    + apply (bool_decide_unpack _). vm_compute. exact I.
    + vm_compute. repeat constructor.
Defined.

End Runs.

(** ** More runs on made-up data *)

Section MoreRuns.
Import Rational Replay.
Local Existing Instance blank_pyplot.

Lemma blank_pyplot_returns : plt_returns (pyplot := blank_pyplot).
Proof. intros c σ. exists σ. reflexivity. Defined.

Lemma rational_addition_commutes (a b : scalar) : fadd a b = fadd b a.
Proof. simpl. apply Qreduction.Qred_complete, QArith_base.Qplus_comm. Defined.

(** X1 on draws of one column: one value where two are needed. *)
Lemma b0_m0_returns_iff_two_columns_run :
  b0_m0 {[ "beta" := whole ]} (one_array one_column)
  = Raise (ValueError "not enough values to unpack (expected 2, got 1)").
Proof.
  assert (Hsample : ({[ "beta" := whole ]} : gmap string ndarray_ref)
                      !! "beta" = Some whole) by reflexivity.
  assert (Hdraws : contents (one_array one_column) whole = Some one_column)
    by reflexivity.
  assert (Hstored : well_stored (one_array one_column)).
  { apply one_array_well_stored. split; [reflexivity | repeat constructor]. }
  destruct (b0_m0_returns_iff_two_columns (one_array one_column)
              {[ "beta" := whole ]} Hstored) as [_ Hpresent].
  destruct (Hpresent whole one_column Hsample Hdraws) as (_ & Hshort & _).
  apply Hshort. simpl. lia.
Defined.

(** X2 on two county names and draws of three columns. *)
Lemma county_series_need_one_name_per_column_run :
  unpooled_estimates two_names second two_arrays
  = Raise (ValueError
             "Length of values (3) does not match length of index (2)") /\
  unpooled_se two_names second two_arrays
  = Raise (ValueError
             "Length of values (3) does not match length of index (2)").
Proof.
  assert (Hdraws : contents two_arrays second = Some a_draws) by reflexivity.
  destruct (county_series_need_one_name_per_column two_names two_arrays
              second a_draws Hdraws) as [_ Hdiffer].
  apply Hdiffer. simpl. lia.
Defined.

(** X5 on the three rows. *)
Lemma y_hat_of_the_observation_table_run :
  exists d y_hat,
    inputs_of_dict (unpooled_data_dict three_rows) = Some d /\
    transformed_parameters d a_draw = Ok y_hat /\
    length y_hat = length (log_radon three_rows) /\
    forall r x c,
      floor_measure three_rows !! r = Some x ->
      county three_rows !! r = Some c ->
      exists a_c,
        par_a a_draw !! Z.to_nat c = Some a_c /\
        y_hat !! r = Some (Some (fadd (fmul (par_beta a_draw) x) a_c)).
Proof.
  apply (y_hat_of_the_observation_table three_rows a_draw).
  - reflexivity.
  - reflexivity.
  - simpl. repeat constructor; lia.
  - reflexivity.
Defined.

(** X6 with rational addition. *)
Lemma fitted_line_is_the_pooled_mean_run :
  exists line,
    let xvals := np_linspace (float_literal (-1) 10) (float_literal 12 10) in
    pooled_mean [intercept; slope] xvals = Ok line /\
    length line = length xvals /\
    length (pooled_plot_calls three_rows intercept slope) = 5 /\
    pooled_plot_calls three_rows intercept slope !! 1
    = Some (Plot (CFloat <$> xvals) (CFloat <$> line) "r--").
Proof.
  destruct (fitted_line_is_the_pooled_mean (pyplot := blank_pyplot)
              three_rows intercept slope rational_addition_commutes)
    as [_ Hline].
  exact Hline.
Defined.

(** X7 on three counties with estimates 4, 1 and 5/2. *)
Lemma error_bars_follow_the_order_run :
  exists order_ ms ses,
    order three_estimates = Ok order_ /\
    (forall σ,
        unpooled_plot (pyplot := blank_pyplot) three_estimates three_se σ
        = for_each plt
            (unpooled_plot_calls (length three_estimates) ms ses) σ) /\
    length order_ = length three_estimates /\
    length (zip3 (range (length three_estimates)) ms ses)
    = length three_estimates /\
    nondecreasing ms /\
    forall k name,
      order_ !! k = Some name ->
      exists m s,
        series_getitem three_estimates name = Ok [m] /\
        series_getitem three_se name = Ok [s] /\
        ms !! k = Some m /\ ses !! k = Some s /\
        (error_bar <$> zip3 (range (length three_estimates)) ms ses) !! k
        = Some (Plot [CInt (Z.of_nat k); CInt (Z.of_nat k)]
                     [CFloat (fsub m s); CFloat (fadd m s)] "b-").
Proof.
  apply (error_bars_follow_the_order (pyplot := blank_pyplot)
           three_estimates three_se).
  - apply (bool_decide_unpack _). vm_compute. exact I.
  - reflexivity.
  - split.
    + apply (bool_decide_unpack _). vm_compute. exact I.
    + vm_compute. repeat constructor.
Defined.

(** X8 with the engine that has its draws ready. *)
Lemma pooled_notebook_returns_the_means_run :
  exists σ',
    pooled_notebook (engine := replaying_engine) (pyplot := blank_pyplot)
      three_rows two_arrays
    = Ok ((np_mean_1d (column beta_draws 0),
           np_mean_1d (column beta_draws 1)), σ').
Proof.
  assert (Hsample : ({[ "beta" := whole ]} : gmap string ndarray_ref)
                      !! "beta" = Some whole) by reflexivity.
  assert (Hdraws : contents two_arrays whole = Some beta_draws)
    by reflexivity.
  apply (pooled_notebook_returns_the_means (engine := replaying_engine)
           (pyplot := blank_pyplot) three_rows two_arrays two_arrays
           two_arrays tt {[ "beta" := whole ]} whole beta_draws).
  - exact blank_pyplot_returns.
  - reflexivity.
  - reflexivity.
  - exact two_arrays_well_stored.
  - exact Hsample.
  - exact Hdraws.
  - reflexivity.
Defined.

(** X9 with the engine that has its draws ready. *)
Lemma unpooled_notebook_returns_the_county_series_run :
  exists σ',
    unpooled_notebook (engine := replaying_engine) (pyplot := blank_pyplot)
      three_rows two_arrays
    = Ok ((zip (mn_counties three_rows)
               (np_mean_1d <$> (column a_draws <$> seq 0 (shape1 a_draws))),
           zip (mn_counties three_rows)
               (np_std_1d <$> (column a_draws <$> seq 0 (shape1 a_draws)))),
          σ').
Proof.
  apply (unpooled_notebook_returns_the_county_series
           (engine := replaying_engine) (pyplot := blank_pyplot)
           three_rows two_arrays two_arrays tt a_draws).
  - exact blank_pyplot_returns.
  - reflexivity.
  - exists second, two_arrays. split; reflexivity.
  - intros a σ2 estimates σ3 Hget Hest.
    change (Ok (second, two_arrays) = Ok (a, σ2)) in Hget.
    injection Hget as <- <-.
    unfold unpooled_estimates, ndarray_mean in Hest.
    destruct (series_of_reduction_frame _ _ _ _ _ _ Hest) as [v ->].
    exists second, (<[fresh (dom two_arrays) := Buffer1 v]> two_arrays).
    split; [reflexivity |]. rewrite contents_alloc1. reflexivity.
  - reflexivity.
  - apply (bool_decide_unpack _). vm_compute. exact I.
  - split.
    + apply (bool_decide_unpack _). vm_compute. exact I.
    + vm_compute. repeat constructor.
Defined.

End MoreRuns.
